(** * M4Sprites: placement of textured sprites

    A shallow embedding of [src/Modulo4/M4Sprites.cpp].  The program keeps a
    [Sprite] value (three shared handles plus position, scale and rotation),
    builds a model matrix for it with GLM, and hands the matrix to a vertex
    shader that is run on the four vertices of a shared quad.

    Scalars.  The program computes with C++ [float] on the CPU and with GLSL
    [float] on the GPU, whose rounding is implementation defined.  The
    embedding takes the scalars in [R], which is exact arithmetic; module
    [F32] repeats the model matrix of [Draw] in IEEE 754 binary32 and decides
    where exactness in the program itself is at issue. *)

From Stdlib Require Import Reals Lra List String Ascii ZArith Lia Bool.
From Stdlib Require Import SpecFloat.
Import ListNotations.

Local Open Scope R_scope.

(** ** GLM: vectors and column-major 4x4 matrices *)

Module glm.

Record vec2 := mkvec2 { x2 : R; y2 : R }.
Record vec3 := mkvec3 { x3 : R; y3 : R; z3 : R }.
Record vec4 := mkvec4 { x4 : R; y4 : R; z4 : R; w4 : R }.

(** [glm::mat4] stores four columns; [m[i]] is column [i]. *)
Record mat4 := mkmat4 { col0 : vec4; col1 : vec4; col2 : vec4; col3 : vec4 }.

(** [vec4 * float] and [vec4 + vec4], componentwise. *)
Definition vscale (v : vec4) (k : R) : vec4 :=
  mkvec4 (x4 v * k) (y4 v * k) (z4 v * k) (w4 v * k).

Definition vadd (a b : vec4) : vec4 :=
  mkvec4 (x4 a + x4 b) (y4 a + y4 b) (z4 a + z4 b) (w4 a + w4 b).

(** [glm::vec3(v2, z)] and [vec4(v3, w)] constructors. *)
Definition vec3_of (v : vec2) (z : R) : vec3 := mkvec3 (x2 v) (y2 v) z.
Definition vec4_of (v : vec3) (w : R) : vec4 := mkvec4 (x3 v) (y3 v) (z3 v) w.

(** [glm::mat4(1.0f)]: the identity. *)
Definition mat4_1 : mat4 :=
  mkmat4 (mkvec4 1 0 0 0) (mkvec4 0 1 0 0) (mkvec4 0 0 1 0) (mkvec4 0 0 0 1).

(** [mat4 * vec4]: the combination of the columns weighted by [v]. *)
Definition mul_vec (m : mat4) (v : vec4) : vec4 :=
  vadd (vadd (vadd (vscale (col0 m) (x4 v)) (vscale (col1 m) (y4 v)))
             (vscale (col2 m) (z4 v)))
       (vscale (col3 m) (w4 v)).

(** [mat4 * mat4]: column [j] of the product is [a * b[j]]. *)
Definition mul (a b : mat4) : mat4 :=
  mkmat4 (mul_vec a (col0 b)) (mul_vec a (col1 b))
         (mul_vec a (col2 b)) (mul_vec a (col3 b)).

(** [glm::radians]: degrees times pi/180. *)
Definition radians (degrees : R) : R := degrees * (PI / 180).

(** [glm::normalize] on [vec3]: [v * inversesqrt(dot(v, v))]. *)
Definition normalize (v : vec3) : vec3 :=
  let k := / sqrt (x3 v * x3 v + y3 v * y3 v + z3 v * z3 v) in
  mkvec3 (x3 v * k) (y3 v * k) (z3 v * k).

(** [glm::translate(m, v)]: [Result = m;
    Result[3] = m[0]*v[0] + m[1]*v[1] + m[2]*v[2] + m[3]]. *)
Definition translate (m : mat4) (v : vec3) : mat4 :=
  mkmat4 (col0 m) (col1 m) (col2 m)
         (vadd (vadd (vadd (vscale (col0 m) (x3 v)) (vscale (col1 m) (y3 v)))
                     (vscale (col2 m) (z3 v)))
               (col3 m)).

(** [glm::rotate(m, angle, v)]: the axis-angle rotation matrix [Rotate] is
    built entry by entry ([Rotate[i][j]] is row [j] of column [i]) and the
    first three columns of [m] are recombined with it. *)
Definition rotate (m : mat4) (angle : R) (v : vec3) : mat4 :=
  let c := cos angle in
  let s := sin angle in
  let axis := normalize v in
  let temp := mkvec3 ((1 - c) * x3 axis) ((1 - c) * y3 axis) ((1 - c) * z3 axis) in
  let r00 := c + x3 temp * x3 axis in
  let r01 := x3 temp * y3 axis + s * z3 axis in
  let r02 := x3 temp * z3 axis - s * y3 axis in
  let r10 := y3 temp * x3 axis - s * z3 axis in
  let r11 := c + y3 temp * y3 axis in
  let r12 := y3 temp * z3 axis + s * x3 axis in
  let r20 := z3 temp * x3 axis + s * y3 axis in
  let r21 := z3 temp * y3 axis - s * x3 axis in
  let r22 := c + z3 temp * z3 axis in
  mkmat4
    (vadd (vadd (vscale (col0 m) r00) (vscale (col1 m) r01)) (vscale (col2 m) r02))
    (vadd (vadd (vscale (col0 m) r10) (vscale (col1 m) r11)) (vscale (col2 m) r12))
    (vadd (vadd (vscale (col0 m) r20) (vscale (col1 m) r21)) (vscale (col2 m) r22))
    (col3 m).

(** [glm::scale(m, v)]: the first three columns are scaled. *)
Definition scale (m : mat4) (v : vec3) : mat4 :=
  mkmat4 (vscale (col0 m) (x3 v)) (vscale (col1 m) (y3 v))
         (vscale (col2 m) (z3 v)) (col3 m).

(** [glm::ortho(left, right, bottom, top, zNear, zFar)], the right-handed
    [-1..1] depth variant that GLM selects by default. *)
Definition ortho (left right bottom top zNear zFar : R) : mat4 :=
  mkmat4 (mkvec4 (2 / (right - left)) 0 0 0)
         (mkvec4 0 (2 / (top - bottom)) 0 0)
         (mkvec4 0 0 (- (2 / (zFar - zNear))) 0)
         (mkvec4 (- ((right + left) / (right - left)))
                 (- ((top + bottom) / (top - bottom)))
                 (- ((zFar + zNear) / (zFar - zNear)))
                 1).

End glm.

Import glm.

(** ** The shared quad ([CreateQuadVAO]) *)

(** The interleaved buffer: per vertex [X Y Z S T]. *)
Definition quadVertices : list R :=
  [ -0.5;  0.5; 0.0;  0.0; 1.0;   (* top left *)
    -0.5; -0.5; 0.0;  0.0; 0.0;   (* bottom left *)
     0.5;  0.5; 0.0;  1.0; 1.0;   (* top right *)
     0.5; -0.5; 0.0;  1.0; 0.0    (* bottom right *) ].

(** [glVertexAttribPointer(index, size, GL_FLOAT, GL_FALSE, stride, offset)]
    with [stride] and [offset] counted in floats: the attribute of vertex [i]
    is the [size] floats starting at [offset + i * stride]. *)
Definition fetch (size stride offset : nat) (buffer : list R) (i : nat) : list R :=
  firstn size (skipn (offset + i * stride) buffer).

(** Attribute 0, [aPos]: 3 floats, stride 5, offset 0. *)
Definition aPos (i : nat) : vec3 :=
  match fetch 3 5 0 quadVertices i with
  | [x; y; z] => mkvec3 x y z
  | _ => mkvec3 0 0 0
  end.

(** Attribute 1, [aTexCoord]: 2 floats, stride 5, offset 3. *)
Definition aTexCoord (i : nat) : vec2 :=
  match fetch 2 5 3 quadVertices i with
  | [s; t] => mkvec2 s t
  | _ => mkvec2 0 0
  end.

(** The vertices that [glDrawArrays(GL_TRIANGLE_STRIP, 0, 4)] visits. *)
Definition drawn_vertices (first count : nat) : list nat := seq first count.

(** ** The vertex shader ([vertexShaderSource]) *)

Record VertexOut := mkVertexOut { gl_Position : vec4; TexCoord : vec2 }.

(** [gl_Position = uProjection * uModel * vec4(aPos, 1.0);
    TexCoord = vec2(aTexCoord.x, 1.0 - aTexCoord.y);]
    GLSL's [*] associates to the left. *)
Definition vertex_main (uModel uProjection : mat4) (pos : vec3) (tex : vec2)
  : VertexOut :=
  mkVertexOut (mul_vec (mul uProjection uModel) (vec4_of pos 1))
              (mkvec2 (x2 tex) (1 - y2 tex)).

(** ** The Sprite class *)

Definition GLuint := N.

Record Sprite := mkSprite {
  shaderID : GLuint;
  VAO : GLuint;
  textureID : GLuint;
  position : vec2;
  scale : vec2;
  rotation : R  (* degrees *)
}.

(** Constructor. *)
Definition Sprite_new (shader quadVAO texture : GLuint) : Sprite :=
  mkSprite shader quadVAO texture (mkvec2 0 0) (mkvec2 100 100) 0.

Definition SetPosition (x y : R) (this : Sprite) : Sprite :=
  mkSprite (shaderID this) (VAO this) (textureID this)
           (mkvec2 x y) (scale this) (rotation this).

Definition SetScale (widthPx heightPx : R) (this : Sprite) : Sprite :=
  mkSprite (shaderID this) (VAO this) (textureID this)
           (position this) (mkvec2 widthPx heightPx) (rotation this).

Definition SetRotation (angleDegrees : R) (this : Sprite) : Sprite :=
  mkSprite (shaderID this) (VAO this) (textureID this)
           (position this) (scale this) angleDegrees.

(** The local [model] of [Sprite::Draw], statement by statement. *)
Definition Draw_model (this : Sprite) : mat4 :=
  let model := mat4_1 in
  let model := translate model (vec3_of (position this) 0) in
  let model := translate model
                 (mkvec3 (0.5 * x2 (scale this)) (0.5 * y2 (scale this)) 0) in
  let model := rotate model (radians (rotation this)) (mkvec3 0 0 1) in
  let model := translate model
                 (mkvec3 (-0.5 * x2 (scale this)) (-0.5 * y2 (scale this)) 0) in
  let model := glm.scale model (mkvec3 (x2 (scale this)) (y2 (scale this)) 1) in
  model.

(** ** The outside world: GLFW, GLAD, OpenGL, stb_image

    The libraries are external.  The program's dealings with them are kept as
    a chronological list of calls; what a call returns to the program comes
    from an environment [Env] that is arbitrary throughout. *)

Local Open Scope string_scope.
Local Open Scope Z_scope.

Record Image := mkImage {
  width : Z;
  height : Z;
  nrChannels : Z;
  data : list Byte.byte
}.

Inductive InputEvent :=
| KeyEvent (key scancode action mods : Z)   (* delivered to the key callback *)
| CloseRequested.                           (* the user closes the window *)

Record Env := mkEnv {
  glfwInit_result : bool;
  glfwCreateWindow_result : N;                   (* 0 is [nullptr] *)
  gladLoadGLLoader_result : bool;
  gen_name : nat -> GLuint;                      (* k-th object name handed out *)
  compile_status : GLuint -> bool;               (* GL_COMPILE_STATUS *)
  link_status : GLuint -> bool;                  (* GL_LINK_STATUS *)
  shader_info_log : GLuint -> string;
  program_info_log : GLuint -> string;
  uniform_location : GLuint -> string -> Z;
  stbi_load_result : string -> option Image;     (* [None] is a null pointer *)
  pending_events : nat -> list InputEvent        (* delivered by the k-th poll *)
}.

Inductive Arg :=
| AInt (z : Z)
| AUInt (n : N)
| AEnum (name : string)
| AString (s : string)
| AFloat (r : R)
| AMat4 (m : mat4)
| AFloats (l : list R)
| APtr (p : option (list Byte.byte)).

Record Call := mkCall { callee : string; args : list Arg }.

Record World := mkWorld {
  names_given : nat;           (* objects created so far *)
  polls : nat;                 (* calls of glfwPollEvents so far *)
  shouldClose : bool;          (* the window's close flag *)
  keyCallbackSet : bool;       (* key_callback registered *)
  cerr : list string;          (* chunks written to standard error *)
  calls : list Call            (* external calls, oldest first *)
}.

(** Program start. *)
Definition start : World := mkWorld 0 0 false false [] [].

(** A small state monad over [World]. *)
Definition M (A : Type) : Type := World -> A * World.

Definition ret {A} (a : A) : M A := fun w => (a, w).

Definition bind {A B} (c : M A) (k : A -> M B) : M B :=
  fun w => let (a, w') := c w in k a w'.

Declare Scope m_scope.
Delimit Scope m_scope with m.
Notation "x <- c ;; k" := (bind c (fun x => k))
  (at level 61, c at next level, right associativity) : m_scope.
Notation "c ;; k" := (bind c (fun _ => k))
  (at level 61, right associativity) : m_scope.
Local Open Scope m_scope.

Definition gets {A} (f : World -> A) : M A := fun w => (f w, w).

Definition modify (f : World -> World) : M unit := fun w => (tt, f w).

(** Updates of one field. *)
Definition record_call (c : Call) (w : World) : World :=
  mkWorld (names_given w) (polls w) (shouldClose w) (keyCallbackSet w)
          (cerr w) (calls w ++ [c]).

Definition write_cerr (chunk : string) (w : World) : World :=
  mkWorld (names_given w) (polls w) (shouldClose w) (keyCallbackSet w)
          (cerr w ++ [chunk]) (calls w).

Definition set_shouldClose (value : bool) (w : World) : World :=
  mkWorld (names_given w) (polls w) value (keyCallbackSet w) (cerr w) (calls w).

Definition set_keyCallback (w : World) : World :=
  mkWorld (names_given w) (polls w) (shouldClose w) true (cerr w) (calls w).

Definition count_name (w : World) : World :=
  mkWorld (S (names_given w)) (polls w) (shouldClose w) (keyCallbackSet w)
          (cerr w) (calls w).

Definition count_poll (w : World) : World :=
  mkWorld (names_given w) (S (polls w)) (shouldClose w) (keyCallbackSet w)
          (cerr w) (calls w).

(** An external call is recorded. *)
Definition call (name : string) (a : list Arg) : M unit :=
  modify (record_call (mkCall name a)).

(** [cerr << chunk]. *)
Definition cerr_put (chunk : string) : M unit := modify (write_cerr chunk).

Definition endl : string := String (ascii_of_nat 10) EmptyString.

(** [for (auto& x : xs) body(x)], each element replaced by what [body] leaves. *)
Fixpoint for_each {A} (body : A -> M A) (xs : list A) : M (list A) :=
  match xs with
  | [] => ret []
  | x :: rest =>
      x' <- body x ;;
      rest' <- for_each body rest ;;
      ret (x' :: rest')
  end.

(** [v.emplace_back(x)] and a call on [v.back()]. *)
Definition emplace_back {A} (v : list A) (x : A) : list A := v ++ [x].

Fixpoint on_back {A} (f : A -> A) (v : list A) : list A :=
  match v with
  | [] => []
  | [x] => [f x]
  | x :: rest => x :: on_back f rest
  end.

Definition SCREEN_WIDTH : Z := 800.
Definition SCREEN_HEIGHT : Z := 600.
Definition GLFW_KEY_ESCAPE : Z := 256.
Definition GLFW_PRESS : Z := 1.
Definition GLFW_SAMPLES : Z := 135181.   (* 0x0002100D *)
Definition sizeof_GLfloat : Z := 4.

(** A raw string literal, line by line; [blank] is an empty line. *)
Definition blank : string := EmptyString.

Definition unlines (ls : list string) : string :=
  fold_right (fun l acc => l ++ endl ++ acc)%string EmptyString ls.

Definition vertexShaderSource : string :=
  unlines [ blank;
            "#version 330 core";
            blank;
            "layout (location = 0) in vec3 aPos;";
            "layout (location = 1) in vec2 aTexCoord;";
            blank;
            "uniform mat4 uModel;";
            "uniform mat4 uProjection;";
            blank;
            "out vec2 TexCoord;";
            blank;
            "void main()";
            "{";
            "    gl_Position = uProjection * uModel * vec4(aPos, 1.0);";
            "    TexCoord = vec2(aTexCoord.x, 1.0 - aTexCoord.y);";
            "}" ].

Definition fragmentShaderSource : string :=
  unlines [ blank;
            "#version 330 core";
            blank;
            "in vec2 TexCoord;";
            "out vec4 FragColor;";
            blank;
            "uniform sampler2D uTexture;";
            blank;
            "void main()";
            "{";
            "    FragColor = texture(uTexture, TexCoord);";
            "}" ].

Section Program.

Variable env : Env.

(** *** Calls that answer *)

(** Object creation: the call is recorded and the next name is handed out. *)
Definition gen (name : string) (a : list Arg) : M GLuint :=
  call name a ;;
  k <- gets names_given ;;
  modify count_name ;;
  ret (gen_name env k).

Definition glCreateShader (type : string) : M GLuint :=
  gen "glCreateShader" [AEnum type].
Definition glCreateProgram : M GLuint := gen "glCreateProgram" [].
Definition glGenTextures (n : Z) : M GLuint := gen "glGenTextures" [AInt n].
Definition glGenVertexArrays (n : Z) : M GLuint := gen "glGenVertexArrays" [AInt n].
Definition glGenBuffers (n : Z) : M GLuint := gen "glGenBuffers" [AInt n].

Definition glGetShaderiv (shader : GLuint) (pname : string) : M bool :=
  call "glGetShaderiv" [AUInt shader; AEnum pname] ;;
  ret (compile_status env shader).

Definition glGetProgramiv (program : GLuint) (pname : string) : M bool :=
  call "glGetProgramiv" [AUInt program; AEnum pname] ;;
  ret (link_status env program).

Definition glGetShaderInfoLog (shader : GLuint) (bufSize : Z) : M string :=
  call "glGetShaderInfoLog" [AUInt shader; AInt bufSize] ;;
  ret (shader_info_log env shader).

Definition glGetProgramInfoLog (program : GLuint) (bufSize : Z) : M string :=
  call "glGetProgramInfoLog" [AUInt program; AInt bufSize] ;;
  ret (program_info_log env program).

Definition glGetUniformLocation (program : GLuint) (name : string) : M Z :=
  call "glGetUniformLocation" [AUInt program; AString name] ;;
  ret (uniform_location env program name).

Definition stbi_load (filename : string) (desired_channels : Z)
  : M (option Image) :=
  call "stbi_load" [AString filename; AInt desired_channels] ;;
  ret (stbi_load_result env filename).

Definition glfwInit : M bool :=
  call "glfwInit" [] ;; ret (glfwInit_result env).

(** A window that is created starts with its close flag down. *)
Definition glfwCreateWindow (w h : Z) (title : string) : M N :=
  call "glfwCreateWindow" [AInt w; AInt h; AString title] ;;
  modify (set_shouldClose false) ;;
  ret (glfwCreateWindow_result env).

Definition gladLoadGLLoader : M bool :=
  call "gladLoadGLLoader" [] ;; ret (gladLoadGLLoader_result env).

Definition glfwWindowShouldClose (window : N) : M bool :=
  call "glfwWindowShouldClose" [AUInt window] ;;
  gets shouldClose.

Definition glfwSetWindowShouldClose (window : N) (value : bool) : M unit :=
  call "glfwSetWindowShouldClose" [AUInt window; AInt (if value then 1 else 0)] ;;
  modify (set_shouldClose value).

Definition glfwSetKeyCallback (window : N) : M unit :=
  call "glfwSetKeyCallback" [AUInt window; AString "key_callback"] ;;
  modify set_keyCallback.

(** [key_callback]: ESC pressed closes the window. *)
Definition key_callback (window : N) (key scancode action mods : Z) : M unit :=
  if (key =? GLFW_KEY_ESCAPE) && (action =? GLFW_PRESS)
  then glfwSetWindowShouldClose window true
  else ret tt.

(** One pending event: a key event goes to the registered callback, a close
    request raises the flag. *)
Definition dispatch (window : N) (e : InputEvent) : M unit :=
  match e with
  | KeyEvent key scancode action mods =>
      registered <- gets keyCallbackSet ;;
      if registered then key_callback window key scancode action mods
      else ret tt
  | CloseRequested => modify (set_shouldClose true)
  end.

Fixpoint dispatch_all (window : N) (es : list InputEvent) : M unit :=
  match es with
  | [] => ret tt
  | e :: rest => dispatch window e ;; dispatch_all window rest
  end.

(** [glfwPollEvents]: the events of this poll are processed in order. *)
Definition glfwPollEvents (window : N) : M unit :=
  call "glfwPollEvents" [] ;;
  k <- gets polls ;;
  modify count_poll ;;
  dispatch_all window (pending_events env k).

(** *** Calls that only act *)

Definition glShaderSource (shader : GLuint) (count : Z) (src : string) : M unit :=
  call "glShaderSource" [AUInt shader; AInt count; AString src].
Definition glCompileShader (shader : GLuint) : M unit :=
  call "glCompileShader" [AUInt shader].
Definition glAttachShader (program shader : GLuint) : M unit :=
  call "glAttachShader" [AUInt program; AUInt shader].
Definition glLinkProgram (program : GLuint) : M unit :=
  call "glLinkProgram" [AUInt program].
Definition glDeleteShader (shader : GLuint) : M unit :=
  call "glDeleteShader" [AUInt shader].
Definition glBindTexture (target : string) (texture : GLuint) : M unit :=
  call "glBindTexture" [AEnum target; AUInt texture].
Definition glTexParameteri (target pname param : string) : M unit :=
  call "glTexParameteri" [AEnum target; AEnum pname; AEnum param].
Definition glTexImage2D (target : string) (level : Z) (internalformat : string)
    (w h border : Z) (format type : string) (pixels : list Byte.byte) : M unit :=
  call "glTexImage2D" [AEnum target; AInt level; AEnum internalformat; AInt w;
                       AInt h; AInt border; AEnum format; AEnum type;
                       APtr (Some pixels)].
Definition glGenerateMipmap (target : string) : M unit :=
  call "glGenerateMipmap" [AEnum target].
Definition stbi_image_free (p : option (list Byte.byte)) : M unit :=
  call "stbi_image_free" [APtr p].
Definition glBindVertexArray (array : GLuint) : M unit :=
  call "glBindVertexArray" [AUInt array].
Definition glBindBuffer (target : string) (buffer : GLuint) : M unit :=
  call "glBindBuffer" [AEnum target; AUInt buffer].
Definition glBufferData (target : string) (size : Z) (d : list R) (usage : string)
  : M unit :=
  call "glBufferData" [AEnum target; AInt size; AFloats d; AEnum usage].
Definition glVertexAttribPointer (index : N) (size : Z) (type normalized : string)
    (stride pointer : Z) : M unit :=
  call "glVertexAttribPointer" [AUInt index; AInt size; AEnum type;
                                AEnum normalized; AInt stride; AInt pointer].
Definition glEnableVertexAttribArray (index : N) : M unit :=
  call "glEnableVertexAttribArray" [AUInt index].
Definition glUseProgram (program : GLuint) : M unit :=
  call "glUseProgram" [AUInt program].
Definition glUniformMatrix4fv (location count : Z) (transpose : string)
    (value : mat4) : M unit :=
  call "glUniformMatrix4fv" [AInt location; AInt count; AEnum transpose; AMat4 value].
Definition glUniform1i (location v0 : Z) : M unit :=
  call "glUniform1i" [AInt location; AInt v0].
Definition glActiveTexture (texture : string) : M unit :=
  call "glActiveTexture" [AEnum texture].
Definition glDrawArrays (mode : string) (first count : Z) : M unit :=
  call "glDrawArrays" [AEnum mode; AInt first; AInt count].
Definition glfwWindowHint (hint value : Z) : M unit :=
  call "glfwWindowHint" [AInt hint; AInt value].
Definition glfwTerminate : M unit := call "glfwTerminate" [].
Definition glfwMakeContextCurrent (window : N) : M unit :=
  call "glfwMakeContextCurrent" [AUInt window].
Definition glViewport (x y w h : Z) : M unit :=
  call "glViewport" [AInt x; AInt y; AInt w; AInt h].
Definition glEnable (cap : string) : M unit := call "glEnable" [AEnum cap].
Definition glBlendFunc (sfactor dfactor : string) : M unit :=
  call "glBlendFunc" [AEnum sfactor; AEnum dfactor].
Definition glClearColor (r g b a : R) : M unit :=
  call "glClearColor" [AFloat r; AFloat g; AFloat b; AFloat a].
Definition glClear (mask : string) : M unit := call "glClear" [AEnum mask].
Definition glfwSwapBuffers (window : N) : M unit :=
  call "glfwSwapBuffers" [AUInt window].
Definition glDeleteVertexArrays (n : Z) (array : GLuint) : M unit :=
  call "glDeleteVertexArrays" [AInt n; AUInt array].
Definition glDeleteProgram (program : GLuint) : M unit :=
  call "glDeleteProgram" [AUInt program].

(** *** The program's functions *)

Definition CreateShaderProgram (vShaderSrc fShaderSrc : string) : M GLuint :=
  (* 1. vertex shader *)
  vertexShader <- glCreateShader "GL_VERTEX_SHADER" ;;
  glShaderSource vertexShader 1 vShaderSrc ;;
  glCompileShader vertexShader ;;
  success <- glGetShaderiv vertexShader "GL_COMPILE_STATUS" ;;
  (if negb success then
     infoLog <- glGetShaderInfoLog vertexShader 512 ;;
     cerr_put ("[ERRO] Vertex Shader compilation failed:" ++ endl)%string ;;
     cerr_put infoLog ;; cerr_put endl
   else ret tt) ;;
  (* 2. fragment shader *)
  fragmentShader <- glCreateShader "GL_FRAGMENT_SHADER" ;;
  glShaderSource fragmentShader 1 fShaderSrc ;;
  glCompileShader fragmentShader ;;
  success <- glGetShaderiv fragmentShader "GL_COMPILE_STATUS" ;;
  (if negb success then
     infoLog <- glGetShaderInfoLog fragmentShader 512 ;;
     cerr_put ("[ERRO] Fragment Shader compilation failed:" ++ endl)%string ;;
     cerr_put infoLog ;; cerr_put endl
   else ret tt) ;;
  (* 3. program *)
  shaderProgram <- glCreateProgram ;;
  glAttachShader shaderProgram vertexShader ;;
  glAttachShader shaderProgram fragmentShader ;;
  glLinkProgram shaderProgram ;;
  success <- glGetProgramiv shaderProgram "GL_LINK_STATUS" ;;
  (if negb success then
     infoLog <- glGetProgramInfoLog shaderProgram 512 ;;
     cerr_put ("[ERRO] Shader Program link failed:" ++ endl)%string ;;
     cerr_put infoLog ;; cerr_put endl
   else ret tt) ;;
  glDeleteShader vertexShader ;;
  glDeleteShader fragmentShader ;;
  ret shaderProgram.

Definition texture_format (channels : Z) : string :=
  if channels =? 1 then "GL_RED"
  else if channels =? 3 then "GL_RGB"
  else if channels =? 4 then "GL_RGBA"
  else "GL_RGB".

Definition loadTexture (filePath : string) : M GLuint :=
  textureID <- glGenTextures 1 ;;
  glBindTexture "GL_TEXTURE_2D" textureID ;;
  glTexParameteri "GL_TEXTURE_2D" "GL_TEXTURE_WRAP_S" "GL_REPEAT" ;;
  glTexParameteri "GL_TEXTURE_2D" "GL_TEXTURE_WRAP_T" "GL_REPEAT" ;;
  glTexParameteri "GL_TEXTURE_2D" "GL_TEXTURE_MIN_FILTER" "GL_LINEAR_MIPMAP_LINEAR" ;;
  glTexParameteri "GL_TEXTURE_2D" "GL_TEXTURE_MAG_FILTER" "GL_LINEAR" ;;
  loaded <- stbi_load filePath 0 ;;
  match loaded with
  | Some img =>
      let format := texture_format (nrChannels img) in
      glTexImage2D "GL_TEXTURE_2D" 0 format (width img) (height img) 0 format
                   "GL_UNSIGNED_BYTE" (data img) ;;
      glGenerateMipmap "GL_TEXTURE_2D"
  | None =>
      cerr_put "[ERRO] Falha ao carregar textura em: " ;;
      cerr_put filePath ;; cerr_put endl
  end ;;
  stbi_image_free (option_map data loaded) ;;
  glBindTexture "GL_TEXTURE_2D" 0%N ;;
  ret textureID.

Definition CreateQuadVAO : M GLuint :=
  VAO <- glGenVertexArrays 1 ;;
  VBO <- glGenBuffers 1 ;;
  glBindVertexArray VAO ;;
  glBindBuffer "GL_ARRAY_BUFFER" VBO ;;
  glBufferData "GL_ARRAY_BUFFER" (Z.of_nat (List.length quadVertices) * sizeof_GLfloat)
               quadVertices "GL_STATIC_DRAW" ;;
  glVertexAttribPointer 0 3 "GL_FLOAT" "GL_FALSE" (5 * sizeof_GLfloat) 0 ;;
  glEnableVertexAttribArray 0 ;;
  glVertexAttribPointer 1 2 "GL_FLOAT" "GL_FALSE" (5 * sizeof_GLfloat)
                        (3 * sizeof_GLfloat) ;;
  glEnableVertexAttribArray 1 ;;
  glBindBuffer "GL_ARRAY_BUFFER" 0%N ;;
  glBindVertexArray 0%N ;;
  ret VAO.

(** [Sprite::Draw]: a method on [this]; the result is the object the call
    leaves behind. *)
Definition Draw (projection : mat4) (this : Sprite) : M Sprite :=
  let model := Draw_model this in
  glUseProgram (shaderID this) ;;
  modelLoc <- glGetUniformLocation (shaderID this) "uModel" ;;
  projLoc <- glGetUniformLocation (shaderID this) "uProjection" ;;
  glUniformMatrix4fv modelLoc 1 "GL_FALSE" model ;;
  glUniformMatrix4fv projLoc 1 "GL_FALSE" projection ;;
  glActiveTexture "GL_TEXTURE0" ;;
  glBindTexture "GL_TEXTURE_2D" (textureID this) ;;
  texLoc <- glGetUniformLocation (shaderID this) "uTexture" ;;
  glUniform1i texLoc 0 ;;
  glBindVertexArray (VAO this) ;;
  glDrawArrays "GL_TRIANGLE_STRIP" 0 4 ;;
  glBindVertexArray 0%N ;;
  ret this.

(** The game loop, [fuel] bounding the number of times the loop condition is
    evaluated; [None] when the bound is hit with the window still open. *)
Fixpoint game_loop (fuel : nat) (window : N) (projection : mat4)
    (sprites : list Sprite) : M (option (list Sprite)) :=
  match fuel with
  | O => ret None
  | S fuel' =>
      closing <- glfwWindowShouldClose window ;;
      if closing then ret (Some sprites)
      else
        glfwPollEvents window ;;
        glClearColor 0.1 0.1 0.1 1.0 ;;
        glClear "GL_COLOR_BUFFER_BIT" ;;
        sprites' <- for_each (Draw projection) sprites ;;
        glfwSwapBuffers window ;;
        game_loop fuel' window projection sprites'
  end.

(** [main]; the result is the exit code, [None] when [fuel] runs out. *)
Definition main (fuel : nat) : M (option Z) :=
  ok <- glfwInit ;;
  if negb ok then
    cerr_put "[ERRO] Falha ao inicializar GLFW" ;; cerr_put endl ;;
    ret (Some (-1))
  else
  glfwWindowHint GLFW_SAMPLES 4 ;;
  window <- glfwCreateWindow SCREEN_WIDTH SCREEN_HEIGHT "MultiSprite Example" ;;
  if (window =? 0)%N then
    cerr_put "[ERRO] Falha ao criar janela GLFW" ;; cerr_put endl ;;
    glfwTerminate ;;
    ret (Some (-1))
  else
  glfwMakeContextCurrent window ;;
  glfwSetKeyCallback window ;;
  ok <- gladLoadGLLoader ;;
  if negb ok then
    cerr_put "[ERRO] Falha ao inicializar GLAD" ;; cerr_put endl ;;
    ret (Some (-1))
  else
  glViewport 0 0 SCREEN_WIDTH SCREEN_HEIGHT ;;
  shaderProgram <- CreateShaderProgram vertexShaderSource fragmentShaderSource ;;
  quadVAO <- CreateQuadVAO ;;
  tex1 <- loadTexture "../assets/sprites/microbio.png" ;;
  tex2 <- loadTexture "../assets/sprites/enemies-spritesheet1.png" ;;
  let sprites := [] in
  let sprites := emplace_back sprites (Sprite_new shaderProgram quadVAO tex1) in
  let sprites := on_back (SetPosition 50 50) sprites in
  let sprites := on_back (SetScale 128 128) sprites in
  let sprites := on_back (SetRotation 0) sprites in
  let sprites := emplace_back sprites (Sprite_new shaderProgram quadVAO tex2) in
  let sprites := on_back (SetPosition 300 200) sprites in
  let sprites := on_back (SetScale 200 100) sprites in
  let sprites := on_back (SetRotation 45) sprites in
  let projection :=
    ortho 0 (IZR SCREEN_WIDTH) 0 (IZR SCREEN_HEIGHT) (-1) 1 in
  glEnable "GL_BLEND" ;;
  glBlendFunc "GL_SRC_ALPHA" "GL_ONE_MINUS_SRC_ALPHA" ;;
  finished <- game_loop fuel window projection sprites ;;
  match finished with
  | None => ret None
  | Some _ =>
      glDeleteVertexArrays 1 quadVAO ;;
      glDeleteProgram shaderProgram ;;
      glfwTerminate ;;
      ret (Some 0)
  end.

End Program.

Local Open Scope R_scope.

(** ** The placement as the specification words it

    Stand-alone transformation matrices and their product, to be compared
    with [Draw_model]. *)

Module Spec.

Definition Translate (tx ty tz : R) : mat4 :=
  mkmat4 (mkvec4 1 0 0 0) (mkvec4 0 1 0 0) (mkvec4 0 0 1 0) (mkvec4 tx ty tz 1).

Definition RotateZ (a : R) : mat4 :=
  mkmat4 (mkvec4 (cos a) (sin a) 0 0) (mkvec4 (- sin a) (cos a) 0 0)
         (mkvec4 0 0 1 0) (mkvec4 0 0 0 1).

Definition Scale (sx sy sz : R) : mat4 :=
  mkmat4 (mkvec4 sx 0 0 0) (mkvec4 0 sy 0 0) (mkvec4 0 0 sz 0) (mkvec4 0 0 0 1).

(** Identity, then translate, pivot-corrected rotation, scale. *)
Definition placement (pos scl : vec2) (rot : R) : mat4 :=
  mul (mul (mul (mul (mul mat4_1
    (Translate (x2 pos) (y2 pos) 0))
    (Translate (0.5 * x2 scl) (0.5 * y2 scl) 0))
    (RotateZ (radians rot)))
    (Translate (-0.5 * x2 scl) (-0.5 * y2 scl) 0))
    (Scale (x2 scl) (y2 scl) 1).

(** The four corners of the unit quad, in buffer order. *)
Definition unit_corners : list vec3 :=
  [ mkvec3 (-0.5) 0.5 0; mkvec3 (-0.5) (-0.5) 0;
    mkvec3 0.5 0.5 0; mkvec3 0.5 (-0.5) 0 ].

End Spec.

(** ** Corners in model space *)

(** Vertex [i] of the quad after the sprite's model matrix, before the
    projection. *)
Definition corner (this : Sprite) (i : nat) : vec4 :=
  mul_vec (Draw_model this) (vec4_of (aPos i) 1).

(** Buffer order of the quad. *)
Definition top_left : nat := 0.
Definition bottom_left : nat := 1.
Definition top_right : nat := 2.
Definition bottom_right : nat := 3.

(** The corner across the diagonal. *)
Definition opposite (i : nat) : nat := (3 - i)%nat.

(** Mean of the four corners. *)
Definition centroid (this : Sprite) : vec2 :=
  mkvec2 ((x4 (corner this 0) + x4 (corner this 1)
           + x4 (corner this 2) + x4 (corner this 3)) / 4)
         ((y4 (corner this 0) + y4 (corner this 1)
           + y4 (corner this 2) + y4 (corner this 3)) / 4).

(** ** Sprite states that setters can produce *)

(** States built from a constructed sprite by setter calls; [ok] restricts
    the arguments that [SetScale] is given. *)
Inductive reachable_with (ok : R -> R -> Prop) : Sprite -> Prop :=
| reach_new (shader quadVAO texture : GLuint) :
    reachable_with ok (Sprite_new shader quadVAO texture)
| reach_SetPosition (x y : R) (s : Sprite) :
    reachable_with ok s -> reachable_with ok (SetPosition x y s)
| reach_SetScale (w h : R) (s : Sprite) :
    ok w h -> reachable_with ok s -> reachable_with ok (SetScale w h s)
| reach_SetRotation (a : R) (s : Sprite) :
    reachable_with ok s -> reachable_with ok (SetRotation a s).

Definition reachable : Sprite -> Prop := reachable_with (fun _ _ => True).

Definition scale_nonneg (s : Sprite) : Prop :=
  0 <= x2 (scale s) /\ 0 <= y2 (scale s).

(** ** Closing the window *)

(** An event that raises the close flag once the key callback is set. *)
Definition closing_event (e : InputEvent) : bool :=
  match e with
  | KeyEvent key _ action _ => ((key =? GLFW_KEY_ESCAPE) && (action =? GLFW_PRESS))%Z
  | CloseRequested => true
  end.

(** The [k]-th poll delivers a closing event. *)
Definition closes_at (env : Env) (k : nat) : Prop :=
  existsb closing_event (pending_events env k) = true.

(** The two sprites of [main]. *)
Definition sprite1 (shader quadVAO tex : GLuint) : Sprite :=
  SetRotation 0 (SetScale 128 128 (SetPosition 50 50 (Sprite_new shader quadVAO tex))).

Definition sprite2 (shader quadVAO tex : GLuint) : Sprite :=
  SetRotation 45 (SetScale 200 100 (SetPosition 300 200 (Sprite_new shader quadVAO tex))).

(** ** Statements about monadic code *)

(** [spec c w Q]: run from [w], [c] returns a value and leaves a world that
    satisfy [Q]. *)
Definition spec {A} (c : M A) (w : World) (Q : A -> World -> Prop) : Prop :=
  Q (fst (c w)) (snd (c w)).

(** The part of the world that decides when the game loop ends. *)
Definition window_state (w : World) : nat * bool * bool :=
  (polls w, shouldClose w, keyCallbackSet w).

(** [c] leaves the window state alone. *)
Definition frames {A} (c : M A) : Prop :=
  forall w, window_state (snd (c w)) = window_state w.

(** What [CreateShaderProgram] writes to [cerr] for a stage that failed. *)
Definition diagnostic (ok : bool) (message infoLog : string) : list string :=
  if ok then [] else [(message ++ endl)%string; infoLog; endl].

(** An environment in which everything succeeds, no image file is found and
    the first poll delivers a press of ESC. *)
Definition env_esc : Env :=
  mkEnv true 1%N true (fun k => N.of_nat (S k)) (fun _ => true) (fun _ => true)
        (fun _ => EmptyString) (fun _ => EmptyString) (fun _ _ => 0%Z) (fun _ => None)
        (fun _ => [KeyEvent GLFW_KEY_ESCAPE 0 GLFW_PRESS 0]).

(** ** Further notions *)

(** The projection that [main] hands to every [Draw]. *)
Definition main_projection : mat4 :=
  ortho 0 (IZR SCREEN_WIDTH) 0 (IZR SCREEN_HEIGHT) (-1) 1.

(** Number of recorded calls of [name]. *)
Definition count_calls (name : string) (w : World) : nat :=
  List.length (filter (fun c => String.eqb (callee c) name) (calls w)).

(** [c] leaves the observation [f] of the world as it was. *)
Definition keeps {T A} (f : World -> T) (c : M A) : Prop :=
  forall w, f (snd (c w)) = f w.

(** Poll [k] is the first one that delivers a closing event. *)
Definition first_close (env : Env) (k : nat) : Prop :=
  closes_at env k /\ forall j, (j < k)%nat -> ~ closes_at env j.

(** An environment in which everything succeeds and no event ever arrives. *)
Definition env_idle : Env :=
  mkEnv true 1%N true (fun k => N.of_nat (S k)) (fun _ => true) (fun _ => true)
        (fun _ => EmptyString) (fun _ => EmptyString) (fun _ _ => 0%Z)
        (fun _ => None) (fun _ => []).

(** An environment in which the window is created and the GL loader fails. *)
Definition env_no_loader : Env :=
  mkEnv true 1%N false (fun k => N.of_nat (S k)) (fun _ => true) (fun _ => true)
        (fun _ => EmptyString) (fun _ => EmptyString) (fun _ _ => 0%Z)
        (fun _ => None) (fun _ => []).

(** What [loadTexture] writes to [cerr] for a file. *)
Definition texture_diagnostic (env : Env) (filePath : string) : list string :=
  match stbi_load_result env filePath with
  | Some _ => []
  | None => ["[ERRO] Falha ao carregar textura em: "%string; filePath; endl]
  end.

(** Everything a run of [main] that gets past initialisation writes to
    [cerr]: the shaders are the first three objects created. *)
Definition main_diagnostics (env : Env) : list string :=
  (diagnostic (compile_status env (gen_name env 0))
     "[ERRO] Vertex Shader compilation failed:" (shader_info_log env (gen_name env 0))
   ++ diagnostic (compile_status env (gen_name env 1))
        "[ERRO] Fragment Shader compilation failed:"
        (shader_info_log env (gen_name env 1))
   ++ diagnostic (link_status env (gen_name env 2))
        "[ERRO] Shader Program link failed:" (program_info_log env (gen_name env 2))
   ++ texture_diagnostic env "../assets/sprites/microbio.png"
   ++ texture_diagnostic env "../assets/sprites/enemies-spritesheet1.png")%list.

(** ** The placement in float32

    [Draw] computes its matrix in C++ [float].  In this module every
    operation of lines 250-258, and of the GLM functions they call, is an
    IEEE 754 binary32 operation rounded to nearest even ([SpecFloat] at
    precision 24), taken in the order in which the source writes them. *)

Module F32.

Definition float : Type := spec_float.

Definition prec : Z := 24.
Definition emax : Z := 128.

Definition add : float -> float -> float := SFadd prec emax.
Definition sub : float -> float -> float := SFsub prec emax.
Definition mul : float -> float -> float := SFmul prec emax.
Definition div : float -> float -> float := SFdiv prec emax.
Definition sqrt : float -> float := SFsqrt prec emax.
Definition opp : float -> float := SFopp.

(** The float nearest to [m * 2^e]. *)
Definition lit (m e : Z) : float := binary_normalize prec emax m e false.

Definition f0 : float := S754_zero false.          (* 0.0f *)
Definition f1 : float := lit 1 0.                  (* 1.0f *)
Definition f0_5 : float := lit 1 (-1).             (* 0.5f *)
Definition f100 : float := lit 100 0.              (* 100.0f *)
(** [0.01745329251994329576923690768489f], bit pattern 0x3C8EFA35. *)
Definition pi_over_180 : float := lit 9370165 (-29).

(** [cos] and [sin] of <cmath> on [float]: external, any pair of functions. *)
Record Libm := mkLibm { cosf : float -> float; sinf : float -> float }.

(** The values of [cos] and [sin] that the C standard fixes (Annex F:
    cos of a zero is 1, sin of a zero is that zero); NaN stands for every
    value it leaves to the implementation. *)
Definition libm_at_zero : Libm :=
  mkLibm (fun x => match x with S754_zero _ => f1 | _ => S754_nan end)
         (fun x => match x with S754_zero _ => x | _ => S754_nan end).


Module glm.

Record vec2 := mkvec2 { x2 : float; y2 : float }.
Record vec3 := mkvec3 { x3 : float; y3 : float; z3 : float }.
Record vec4 := mkvec4 { x4 : float; y4 : float; z4 : float; w4 : float }.
Record mat4 := mkmat4 { col0 : vec4; col1 : vec4; col2 : vec4; col3 : vec4 }.

Definition vscale (v : vec4) (k : float) : vec4 :=
  mkvec4 (mul (x4 v) k) (mul (y4 v) k) (mul (z4 v) k) (mul (w4 v) k).

Definition vadd (a b : vec4) : vec4 :=
  mkvec4 (add (x4 a) (x4 b)) (add (y4 a) (y4 b))
         (add (z4 a) (z4 b)) (add (w4 a) (w4 b)).

Definition vec3_of (v : vec2) (z : float) : vec3 := mkvec3 (x2 v) (y2 v) z.
Definition vec4_of (v : vec3) (w : float) : vec4 := mkvec4 (x3 v) (y3 v) (z3 v) w.

(** [glm::mat4(1.0f)]. *)
Definition mat4_1 : mat4 :=
  mkmat4 (mkvec4 f1 f0 f0 f0) (mkvec4 f0 f1 f0 f0)
         (mkvec4 f0 f0 f1 f0) (mkvec4 f0 f0 f0 f1).

(** [mat4 * vec4]: [m[0]*v.x + m[1]*v.y + m[2]*v.z + m[3]*v.w], summed from
    the left. *)
Definition mul_vec (m : mat4) (v : vec4) : vec4 :=
  vadd (vadd (vadd (vscale (col0 m) (x4 v)) (vscale (col1 m) (y4 v)))
             (vscale (col2 m) (z4 v)))
       (vscale (col3 m) (w4 v)).

(** [glm::radians]: [degrees * 0.01745329251994329576923690768489f]. *)
Definition radians (degrees : float) : float := mul degrees pi_over_180.

(** [glm::normalize]: [v * inversesqrt(dot(v, v))], with
    [inversesqrt(x) = 1 / sqrt(x)] and the dot product summed from the left. *)
Definition normalize (v : vec3) : vec3 :=
  let d := add (add (mul (x3 v) (x3 v)) (mul (y3 v) (y3 v))) (mul (z3 v) (z3 v)) in
  let k := div f1 (sqrt d) in
  mkvec3 (mul (x3 v) k) (mul (y3 v) k) (mul (z3 v) k).

(** [glm::translate]:
    [Result[3] = m[0]*v[0] + m[1]*v[1] + m[2]*v[2] + m[3]]. *)
Definition translate (m : mat4) (v : vec3) : mat4 :=
  mkmat4 (col0 m) (col1 m) (col2 m)
         (vadd (vadd (vadd (vscale (col0 m) (x3 v)) (vscale (col1 m) (y3 v)))
                     (vscale (col2 m) (z3 v)))
               (col3 m)).

(** [glm::rotate], entry by entry as in the real-number version above. *)
Definition rotate (libm : Libm) (m : mat4) (angle : float) (v : vec3) : mat4 :=
  let c := cosf libm angle in
  let s := sinf libm angle in
  let axis := normalize v in
  let temp := mkvec3 (mul (sub f1 c) (x3 axis)) (mul (sub f1 c) (y3 axis))
                     (mul (sub f1 c) (z3 axis)) in
  let r00 := add c (mul (x3 temp) (x3 axis)) in
  let r01 := add (mul (x3 temp) (y3 axis)) (mul s (z3 axis)) in
  let r02 := sub (mul (x3 temp) (z3 axis)) (mul s (y3 axis)) in
  let r10 := sub (mul (y3 temp) (x3 axis)) (mul s (z3 axis)) in
  let r11 := add c (mul (y3 temp) (y3 axis)) in
  let r12 := add (mul (y3 temp) (z3 axis)) (mul s (x3 axis)) in
  let r20 := add (mul (z3 temp) (x3 axis)) (mul s (y3 axis)) in
  let r21 := sub (mul (z3 temp) (y3 axis)) (mul s (x3 axis)) in
  let r22 := add c (mul (z3 temp) (z3 axis)) in
  mkmat4
    (vadd (vadd (vscale (col0 m) r00) (vscale (col1 m) r01)) (vscale (col2 m) r02))
    (vadd (vadd (vscale (col0 m) r10) (vscale (col1 m) r11)) (vscale (col2 m) r12))
    (vadd (vadd (vscale (col0 m) r20) (vscale (col1 m) r21)) (vscale (col2 m) r22))
    (col3 m).

(** [glm::scale]. *)
Definition scale (m : mat4) (v : vec3) : mat4 :=
  mkmat4 (vscale (col0 m) (x3 v)) (vscale (col1 m) (y3 v))
         (vscale (col2 m) (z3 v)) (col3 m).

End glm.

Import glm.

(** The vertex buffer of [CreateQuadVAO] and its position attribute. *)
Definition quadVertices : list float :=
  [ opp f0_5; f0_5; f0;  f0; f1;
    opp f0_5; opp f0_5; f0;  f0; f0;
    f0_5; f0_5; f0;  f1; f1;
    f0_5; opp f0_5; f0;  f1; f0 ].

Definition aPos (i : nat) : vec3 :=
  match firstn 3 (skipn (0 + i * 5) quadVertices) with
  | [x; y; z] => mkvec3 x y z
  | _ => mkvec3 f0 f0 f0
  end.

Record Sprite := mkSprite {
  shaderID : GLuint;
  VAO : GLuint;
  textureID : GLuint;
  position : vec2;
  scale : vec2;
  rotation : float
}.

Definition Sprite_new (shader quadVAO texture : GLuint) : Sprite :=
  mkSprite shader quadVAO texture (mkvec2 f0 f0) (mkvec2 f100 f100) f0.

Definition SetPosition (x y : float) (this : Sprite) : Sprite :=
  mkSprite (shaderID this) (VAO this) (textureID this)
           (mkvec2 x y) (scale this) (rotation this).

Definition SetScale (widthPx heightPx : float) (this : Sprite) : Sprite :=
  mkSprite (shaderID this) (VAO this) (textureID this)
           (position this) (mkvec2 widthPx heightPx) (rotation this).

Definition SetRotation (angleDegrees : float) (this : Sprite) : Sprite :=
  mkSprite (shaderID this) (VAO this) (textureID this)
           (position this) (scale this) angleDegrees.

(** The local [model] of [Sprite::Draw], statement by statement. *)
Definition Draw_model (libm : Libm) (this : Sprite) : mat4 :=
  let model := mat4_1 in
  let model := translate model (vec3_of (position this) f0) in
  let model := translate model
                 (mkvec3 (mul f0_5 (x2 (scale this))) (mul f0_5 (y2 (scale this))) f0) in
  let model := rotate libm model (radians (rotation this)) (mkvec3 f0 f0 f1) in
  let model := translate model
                 (mkvec3 (mul (opp f0_5) (x2 (scale this)))
                         (mul (opp f0_5) (y2 (scale this))) f0) in
  let model := glm.scale model (mkvec3 (x2 (scale this)) (y2 (scale this)) f1) in
  model.

(** Vertex [i] of the quad after the model matrix. *)
Definition corner (libm : Libm) (this : Sprite) (i : nat) : vec4 :=
  mul_vec (Draw_model libm this) (vec4_of (aPos i) f1).

End F32.

(** ** What a list of calls says about the vertex data *)

(** The arguments of the last call of [name]. *)
Definition last_call (name : string) (cs : list Call) : option (list Arg) :=
  fold_left (fun acc c => if String.eqb (callee c) name then Some (args c) else acc)
            cs None.

(** Byte size and contents given to the last [glBufferData]. *)
Definition buffer_upload (cs : list Call) : option (Z * list R) :=
  match last_call "glBufferData" cs with
  | Some [_; AInt bytes; AFloats d; _] => Some (bytes, d)
  | _ => None
  end.

(** Size (in components), stride and offset (in bytes) given to the last
    [glVertexAttribPointer] for attribute [index]. *)
Definition attrib_pointer (index : N) (cs : list Call) : option (Z * Z * Z) :=
  fold_left
    (fun acc c =>
       if String.eqb (callee c) "glVertexAttribPointer" then
         match args c with
         | [AUInt i; AInt size; _; _; AInt stride; AInt pointer] =>
             if N.eqb i index then Some (size, stride, pointer) else acc
         | _ => acc
         end
       else acc)
    cs None.

(** First vertex and vertex count of the last [glDrawArrays]. *)
Definition draw_range (cs : list Call) : option (Z * Z) :=
  match last_call "glDrawArrays" cs with
  | Some [_; AInt first; AInt count] => Some (first, count)
  | _ => None
  end.

(** Attribute [index] of vertex [i] lies inside the uploaded buffer, whose
    declared size is that of its contents. *)
Definition in_buffer (cs : list Call) (index : N) (i : Z) : Prop :=
  match buffer_upload cs, attrib_pointer index cs with
  | Some (bytes, d), Some (size, stride, pointer) =>
      (0 <= pointer + i * stride
       /\ pointer + i * stride + size * sizeof_GLfloat <= bytes
       /\ bytes = Z.of_nat (List.length d) * sizeof_GLfloat)%Z
  | _, _ => False
  end.

(** Attribute [index] of vertex [i] as the layout and the buffer give it. *)
Definition attribute (cs : list Call) (index : N) (i : nat) : list R :=
  match buffer_upload cs, attrib_pointer index cs with
  | Some (_, d), Some (size, stride, pointer) =>
      fetch (Z.to_nat size) (Z.to_nat (stride / sizeof_GLfloat))
            (Z.to_nat (pointer / sizeof_GLfloat)) d i
  | _, _ => []
  end.

(** * Properties *)

Local Open Scope list_scope.

(** ** Linear algebra *)

Lemma vec4_eq (a b c d a' b' c' d' : R) :
  a = a' -> b = b' -> c = c' -> d = d' -> mkvec4 a b c d = mkvec4 a' b' c' d'.
Proof. intros; subst; reflexivity. Qed.

Lemma mat4_eq (a b c d a' b' c' d' : vec4) :
  a = a' -> b = b' -> c = c' -> d = d' -> mkmat4 a b c d = mkmat4 a' b' c' d'.
Proof. intros; subst; reflexivity. Qed.

(** Call-by-value evaluation of the vector operations: records are built
    before they are projected, and the operations of [R] stay folded. *)
Ltac glm_eval :=
  cbv [mul mul_vec vadd vscale translate glm.scale vec3_of vec4_of mat4_1
       x2 y2 x3 y3 z3 x4 y4 z4 w4 col0 col1 col2 col3
       position scale rotation shaderID VAO textureID] in *.

(** Decimal literals are [Q2R] of a fraction; they are turned into
    quotients of integers for [ring] and [field]. *)
Ltac decimals := cbv [Q2R QArith_base.Qnum QArith_base.Qden] in *.

Ltac vec_ring :=
  glm_eval; decimals;
  repeat first [ apply mat4_eq | apply vec4_eq ]; try ring.

(** [(a * b) * v = a * (b * v)]. *)
Lemma mul_vec_assoc (a b : mat4) (v : vec4) :
  mul_vec (mul a b) v = mul_vec a (mul_vec b v).
Proof.
  destruct a as [[] [] [] []], b as [[] [] [] []], v. vec_ring.
Qed.

(** The Z axis is already of unit length. *)
Lemma normalize_z : normalize (mkvec3 0 0 1) = mkvec3 0 0 1.
Proof.
  unfold normalize; glm_eval.
  replace (0 * 0 + 0 * 0 + 1 * 1) with 1 by ring.
  rewrite sqrt_1, Rinv_1. f_equal; ring.
Qed.

(** [glm::rotate] about the Z axis mixes the first two columns. *)
Lemma rotate_z (m : mat4) (a : R) :
  rotate m a (mkvec3 0 0 1) =
  mkmat4 (vadd (vscale (col0 m) (cos a)) (vscale (col1 m) (sin a)))
         (vadd (vscale (col0 m) (- sin a)) (vscale (col1 m) (cos a)))
         (col2 m) (col3 m).
Proof.
  unfold rotate. rewrite normalize_z.
  destruct m as [[] [] [] []]. vec_ring.
Qed.

(** The model matrix of [Draw] in closed form. *)
Lemma Draw_model_closed (this : Sprite) :
  let c := cos (radians (rotation this)) in
  let s := sin (radians (rotation this)) in
  let px := x2 (position this) in
  let py := y2 (position this) in
  let sx := x2 (scale this) in
  let sy := y2 (scale this) in
  Draw_model this =
  mkmat4 (mkvec4 (sx * c) (sx * s) 0 0)
         (mkvec4 (- (sy * s)) (sy * c) 0 0)
         (mkvec4 0 0 1 0)
         (mkvec4 (px + sx / 2 - (sx / 2) * c + (sy / 2) * s)
                 (py + sy / 2 - (sx / 2) * s - (sy / 2) * c) 0 1).
Proof.
  destruct this as [sh va tx [px py] [sx sy] rot].
  unfold Draw_model. rewrite !rotate_z. vec_ring; field.
Qed.

(** The GLM builders multiply on the right by the stand-alone matrices. *)
Lemma translate_mul (m : mat4) (x y z : R) :
  translate m (mkvec3 x y z) = mul m (Spec.Translate x y z).
Proof.
  destruct m as [[] [] [] []]. unfold Spec.Translate. vec_ring.
Qed.

Lemma rotate_mul (m : mat4) (a : R) :
  rotate m a (mkvec3 0 0 1) = mul m (Spec.RotateZ a).
Proof.
  rewrite rotate_z. destruct m as [[] [] [] []]. unfold Spec.RotateZ. vec_ring.
Qed.

Lemma scale_mul (m : mat4) (x y z : R) :
  glm.scale m (mkvec3 x y z) = mul m (Spec.Scale x y z).
Proof.
  destruct m as [[] [] [] []]. unfold Spec.Scale. vec_ring.
Qed.

(** [Draw_model] is the product the specification names. *)
Lemma Draw_model_placement (this : Sprite) :
  Draw_model this = Spec.placement (position this) (scale this) (rotation this).
Proof.
  unfold Draw_model, Spec.placement, vec3_of.
  rewrite !translate_mul, rotate_mul, scale_mul. reflexivity.
Qed.

(** The positions read from the buffer are the corners of the unit quad. *)
Lemma aPos_unit_corners : map aPos (drawn_vertices 0 4) = Spec.unit_corners.
Proof.
  cbv [Spec.unit_corners drawn_vertices seq map aPos fetch quadVertices
       Nat.add Nat.mul skipn firstn].
  replace 0.0 with 0 by lra. reflexivity.
Qed.

(** A corner in closed form: the scaled vertex is turned about the image of
    vertex (0.5, 0.5), which sits at position + scale / 2. *)
Lemma corner_closed (this : Sprite) (i : nat) :
  let c := cos (radians (rotation this)) in
  let s := sin (radians (rotation this)) in
  let sx := x2 (scale this) in
  let sy := y2 (scale this) in
  let vx := x3 (aPos i) in
  let vy := y3 (aPos i) in
  corner this i =
  mkvec4 (x2 (position this) + sx / 2 + c * (sx * vx - sx / 2) - s * (sy * vy - sy / 2))
         (y2 (position this) + sy / 2 + s * (sx * vx - sx / 2) + c * (sy * vy - sy / 2))
         (z3 (aPos i)) 1.
Proof.
  cbv zeta. unfold corner. rewrite Draw_model_closed.
  destruct (aPos i) as [vx vy vz]. vec_ring.
Qed.

Lemma radians_0 : radians 0 = 0.
Proof. unfold radians; field. Qed.

Lemma radians_45 : radians 45 = PI / 4.
Proof. unfold radians; field. Qed.

Lemma radians_180 : radians 180 = PI.
Proof. unfold radians; field. Qed.

(** ** Running the program *)

(** Evaluation of the monadic code down to the [World] it leaves. *)
Ltac run :=
  cbv [bind ret gets modify call gen cerr_put
       record_call write_cerr set_shouldClose set_keyCallback count_name count_poll
       glCreateShader glCreateProgram glGenTextures glGenVertexArrays glGenBuffers
       glGetShaderiv glGetProgramiv glGetShaderInfoLog glGetProgramInfoLog
       glGetUniformLocation stbi_load glfwInit glfwCreateWindow gladLoadGLLoader
       glfwWindowShouldClose glfwSetWindowShouldClose glfwSetKeyCallback
       glShaderSource glCompileShader glAttachShader glLinkProgram glDeleteShader
       glBindTexture glTexParameteri glTexImage2D glGenerateMipmap stbi_image_free
       glBindVertexArray glBindBuffer glBufferData glVertexAttribPointer
       glEnableVertexAttribArray glUseProgram glUniformMatrix4fv glUniform1i
       glActiveTexture glDrawArrays glfwWindowHint glfwTerminate
       glfwMakeContextCurrent glViewport glEnable glBlendFunc glClearColor glClear
       glfwSwapBuffers glDeleteVertexArrays glDeleteProgram
       fst snd names_given polls shouldClose keyCallbackSet cerr calls negb] in *.

(** ** The model matrix and the vertex stage *)

(** C1: the model matrix that [Sprite::Draw] computes is the identity
    multiplied on the right by Translate(position), Translate(+scale/2),
    RotateZ(radians(rotation)), Translate(-scale/2) and Scale(scale.x,
    scale.y, 1), in that order; [Draw] uploads it as [uModel], uploads the
    projection it was given as [uProjection] and draws four vertices; and for
    each of the four quad corners the vertex shader yields
    projection * (model * corner). *)
Theorem C1_model_matrix_and_vertex_stage
    (env : Env) (projection : mat4) (this : Sprite) (w : World) :
  let placement := Spec.placement (position this) (scale this) (rotation this) in
  Draw_model this = placement
  /\ calls (snd (Draw env projection this w)) =
     calls w ++
     [ mkCall "glUseProgram" [AUInt (shaderID this)];
       mkCall "glGetUniformLocation" [AUInt (shaderID this); AString "uModel"];
       mkCall "glGetUniformLocation" [AUInt (shaderID this); AString "uProjection"];
       mkCall "glUniformMatrix4fv"
         [AInt (uniform_location env (shaderID this) "uModel"); AInt 1;
          AEnum "GL_FALSE"; AMat4 placement];
       mkCall "glUniformMatrix4fv"
         [AInt (uniform_location env (shaderID this) "uProjection"); AInt 1;
          AEnum "GL_FALSE"; AMat4 projection];
       mkCall "glActiveTexture" [AEnum "GL_TEXTURE0"];
       mkCall "glBindTexture" [AEnum "GL_TEXTURE_2D"; AUInt (textureID this)];
       mkCall "glGetUniformLocation" [AUInt (shaderID this); AString "uTexture"];
       mkCall "glUniform1i"
         [AInt (uniform_location env (shaderID this) "uTexture"); AInt 0];
       mkCall "glBindVertexArray" [AUInt (VAO this)];
       mkCall "glDrawArrays" [AEnum "GL_TRIANGLE_STRIP"; AInt 0; AInt 4];
       mkCall "glBindVertexArray" [AUInt 0] ]
  /\ map (fun i => gl_Position (vertex_main (Draw_model this) projection
                                            (aPos i) (aTexCoord i)))
         (drawn_vertices 0 4) =
     map (fun v => mul_vec projection (mul_vec placement (vec4_of v 1)))
         Spec.unit_corners.
Proof.
  cbv zeta. split; [apply Draw_model_placement|]. split.
  - unfold Draw. rewrite Draw_model_placement.
    run. rewrite <- !app_assoc. reflexivity.
  - rewrite <- aPos_unit_corners, map_map.
    apply map_ext; intro i. cbn [vertex_main gl_Position].
    rewrite mul_vec_assoc, Draw_model_placement. reflexivity.
Qed.

(** ** Corners of the sprites of [main] *)

(** The vector that [main] fills is [sprite1] followed by [sprite2]. *)
Lemma main_sprites (shaderProgram quadVAO tex1 tex2 : GLuint) :
  on_back (SetRotation 45)
    (on_back (SetScale 200 100)
      (on_back (SetPosition 300 200)
        (emplace_back
          (on_back (SetRotation 0)
            (on_back (SetScale 128 128)
              (on_back (SetPosition 50 50)
                (emplace_back [] (Sprite_new shaderProgram quadVAO tex1)))))
          (Sprite_new shaderProgram quadVAO tex2))))
  = [sprite1 shaderProgram quadVAO tex1; sprite2 shaderProgram quadVAO tex2].
Proof. reflexivity. Qed.

Lemma aPos_top_left : aPos 0 = mkvec3 (-0.5) 0.5 0.0.
Proof. reflexivity. Qed.

Lemma aPos_bottom_left : aPos 1 = mkvec3 (-0.5) (-0.5) 0.0.
Proof. reflexivity. Qed.

Lemma aPos_top_right : aPos 2 = mkvec3 0.5 0.5 0.0.
Proof. reflexivity. Qed.

Lemma aPos_bottom_right : aPos 3 = mkvec3 0.5 (-0.5) 0.0.
Proof. reflexivity. Qed.

Lemma vec4_x_neq (a b c d a' b' c' d' : R) :
  a <> a' -> mkvec4 a b c d <> mkvec4 a' b' c' d'.
Proof. intros H E; injection E; intros; contradiction. Qed.

Lemma vec2_x_neq (a b a' b' : R) : a <> a' -> mkvec2 a b <> mkvec2 a' b'.
Proof. intros H E; injection E; intros; contradiction. Qed.

Ltac corners :=
  rewrite ?corner_closed;
  unfold top_left, bottom_left, top_right, bottom_right, opposite, Nat.sub;
  rewrite ?aPos_top_left, ?aPos_bottom_left, ?aPos_top_right, ?aPos_bottom_right;
  cbv [sprite1 sprite2 Sprite_new SetPosition SetScale SetRotation];
  glm_eval.

(** C2: at rotation 0 the quad is laid out around the position, not from
    it: its corners are position -/+ scale / 2.  At position (50,50) and
    scale (128,128) the top-left corner is at (-14,114) and the bottom-right
    at (114,-14); neither is at (50,178) or (178,50). *)
Theorem C2_rotation_0_corners (this : Sprite) (shader quadVAO tex : GLuint) :
  (let px := x2 (position this) in
   let py := y2 (position this) in
   let sx := x2 (scale this) in
   let sy := y2 (scale this) in
   corner (SetRotation 0 this) top_left = mkvec4 (px - sx / 2) (py + sy / 2) 0 1
   /\ corner (SetRotation 0 this) bottom_left = mkvec4 (px - sx / 2) (py - sy / 2) 0 1
   /\ corner (SetRotation 0 this) top_right = mkvec4 (px + sx / 2) (py + sy / 2) 0 1
   /\ corner (SetRotation 0 this) bottom_right = mkvec4 (px + sx / 2) (py - sy / 2) 0 1)
  /\ let s := sprite1 shader quadVAO tex in
     corner s top_left = mkvec4 (-14) 114 0 1
     /\ corner s bottom_right = mkvec4 114 (-14) 0 1
     /\ corner s top_left <> mkvec4 50 178 0 1
     /\ corner s bottom_right <> mkvec4 178 50 0 1.
Proof.
  split.
  - destruct this as [sh va tx [px py] [sx sy] rot]. cbv zeta.
    repeat split; corners; rewrite radians_0, cos_0, sin_0; decimals;
      apply vec4_eq; field.
  - cbv zeta.
    assert (TL : corner (sprite1 shader quadVAO tex) top_left
                 = mkvec4 (-14) 114 0 1).
    { corners. rewrite radians_0, cos_0, sin_0. decimals. apply vec4_eq; field. }
    assert (BR : corner (sprite1 shader quadVAO tex) bottom_right
                 = mkvec4 114 (-14) 0 1).
    { corners. rewrite radians_0, cos_0, sin_0. decimals. apply vec4_eq; field. }
    rewrite TL, BR. repeat split; apply vec4_x_neq; lra.
Qed.

(** Corners average to the image of the quad's own centre. *)
Lemma centroid_closed (this : Sprite) :
  let c := cos (radians (rotation this)) in
  let s := sin (radians (rotation this)) in
  let sx := x2 (scale this) in
  let sy := y2 (scale this) in
  centroid this =
  mkvec2 (x2 (position this) + sx / 2 - c * (sx / 2) + s * (sy / 2))
         (y2 (position this) + sy / 2 - s * (sx / 2) - c * (sy / 2)).
Proof.
  destruct this as [sh va tx [px py] [sx sy] rot].
  cbv zeta. unfold centroid. corners. decimals. f_equal; field.
Qed.

Lemma cos_45 : cos (radians 45) = sqrt 2 / 2.
Proof.
  rewrite radians_45, cos_PI4.
  assert (H : sqrt 2 * sqrt 2 = 2) by (apply sqrt_sqrt; lra).
  assert (0 < sqrt 2) by (apply sqrt_lt_R0; lra).
  field_simplify_eq; [lra | lra].
Qed.

Lemma sin_45 : sin (radians 45) = sqrt 2 / 2.
Proof.
  rewrite radians_45, sin_PI4.
  assert (H : sqrt 2 * sqrt 2 = 2) by (apply sqrt_sqrt; lra).
  assert (0 < sqrt 2) by (apply sqrt_lt_R0; lra).
  field_simplify_eq; [lra | lra].
Qed.

(** The rotation turns the quad about the image of its vertex (0.5, 0.5):
    the top-right corner stays at position + scale / 2 for every angle. *)
Lemma pivot_is_top_right (this : Sprite) :
  corner this top_right =
  mkvec4 (x2 (position this) + x2 (scale this) / 2)
         (y2 (position this) + y2 (scale this) / 2) 0 1.
Proof.
  destruct this as [sh va tx [px py] [sx sy] rot].
  corners. decimals. apply vec4_eq; field.
Qed.

(** C3: for the sprite at (300,200) with scale (200,100) the centroid of the
    four corners is (300,200) at rotation 0 and
    (400 - 25*sqrt 2, 250 - 75*sqrt 2) at rotation 45: the rotation moves the
    centroid, and the centroid is not (400,250). *)
Theorem C3_sprite2_centroid (shader quadVAO tex : GLuint) :
  let s := sprite2 shader quadVAO tex in
  centroid s = mkvec2 (400 - 25 * sqrt 2) (250 - 75 * sqrt 2)
  /\ centroid (SetRotation 0 s) = mkvec2 300 200
  /\ centroid s <> centroid (SetRotation 0 s)
  /\ centroid s <> mkvec2 400 250.
Proof.
  cbv zeta.
  assert (A : centroid (sprite2 shader quadVAO tex)
              = mkvec2 (400 - 25 * sqrt 2) (250 - 75 * sqrt 2)).
  { rewrite centroid_closed.
    cbv [sprite2 Sprite_new SetPosition SetScale SetRotation]; glm_eval.
    rewrite cos_45, sin_45. f_equal; field. }
  assert (B : centroid (SetRotation 0 (sprite2 shader quadVAO tex))
              = mkvec2 300 200).
  { rewrite centroid_closed.
    cbv [sprite2 Sprite_new SetPosition SetScale SetRotation]; glm_eval.
    rewrite radians_0, cos_0, sin_0. f_equal; field. }
  assert (P : 0 < sqrt 2) by (apply sqrt_lt_R0; lra).
  assert (Q : sqrt 2 * sqrt 2 = 2) by (apply sqrt_sqrt; lra).
  rewrite A, B. repeat split; apply vec2_x_neq; intro E; nra.
Qed.

(** At 180 degrees a corner lands on the opposite corner's place shifted by
    the scale. *)
Lemma corner_180 (this : Sprite) (vx vy vz : R) (i : nat) :
  aPos i = mkvec3 vx vy vz ->
  aPos (opposite i) = mkvec3 (- vx) (- vy) vz ->
  corner (SetRotation 180 this) i =
  vadd (corner (SetRotation 0 this) (opposite i))
       (mkvec4 (x2 (scale this)) (y2 (scale this)) 0 0).
Proof.
  intros Hi Ho. rewrite !corner_closed, Hi, Ho.
  destruct this as [sh va tx [px py] [sx sy] rot].
  cbv [SetRotation]; glm_eval.
  rewrite radians_0, radians_180, cos_0, sin_0, cos_PI, sin_PI.
  apply vec4_eq; field.
Qed.

(** C4: with the rotation set to 180 degrees each of the four corners is at
    the place its diagonally opposite corner has at rotation 0 displaced by
    (scale.x, scale.y); for a newly constructed sprite the top-left corner
    goes to (150,50) while the bottom-right corner at rotation 0 is at
    (50,-50). *)
Theorem C4_rotation_180_misses_opposite (this : Sprite) (shader quadVAO tex : GLuint) :
  Forall (fun i =>
            corner (SetRotation 180 this) i =
            vadd (corner (SetRotation 0 this) (opposite i))
                 (mkvec4 (x2 (scale this)) (y2 (scale this)) 0 0))
         (drawn_vertices 0 4)
  /\ let s := Sprite_new shader quadVAO tex in
     corner (SetRotation 180 s) top_left = mkvec4 150 50 0 1
     /\ corner (SetRotation 0 s) (opposite top_left) = mkvec4 50 (-50) 0 1
     /\ corner (SetRotation 180 s) top_left
        <> corner (SetRotation 0 s) (opposite top_left).
Proof.
  split.
  - unfold drawn_vertices, seq. repeat constructor.
    + apply (corner_180 this (-0.5) 0.5 0.0); cbv [opposite Nat.sub];
        [reflexivity|]. rewrite aPos_bottom_right. f_equal; lra.
    + apply (corner_180 this (-0.5) (-0.5) 0.0); cbv [opposite Nat.sub];
        [reflexivity|]. rewrite aPos_top_right. f_equal; lra.
    + apply (corner_180 this 0.5 0.5 0.0); cbv [opposite Nat.sub];
        [reflexivity|]. rewrite aPos_bottom_left. f_equal; lra.
    + apply (corner_180 this 0.5 (-0.5) 0.0); cbv [opposite Nat.sub];
        [reflexivity|]. rewrite aPos_top_left. f_equal; lra.
  - cbv zeta.
    assert (A : corner (SetRotation 180 (Sprite_new shader quadVAO tex)) top_left
                = mkvec4 150 50 0 1).
    { corners. rewrite radians_180, cos_PI, sin_PI. decimals.
      apply vec4_eq; field. }
    assert (B : corner (SetRotation 0 (Sprite_new shader quadVAO tex))
                       (opposite top_left) = mkvec4 50 (-50) 0 1).
    { corners. rewrite radians_0, cos_0, sin_0. decimals.
      apply vec4_eq; field. }
    rewrite A, B. repeat split. apply vec4_x_neq; lra.
Qed.

(** In float32 a sprite at rotation 0 gets the same matrix from every libm
    that returns 1 for the cosine and 0 for the sine of 0. *)
Lemma Draw_model_f32_rotation_0 (libm : F32.Libm) (this : F32.Sprite) :
  F32.cosf libm F32.f0 = F32.f1 ->
  F32.sinf libm F32.f0 = F32.f0 ->
  F32.rotation this = F32.f0 ->
  F32.Draw_model libm this = F32.Draw_model F32.libm_at_zero this.
Proof.
  intros C S R. unfold F32.Draw_model, F32.glm.rotate. rewrite R.
  change (F32.glm.radians F32.f0) with F32.f0. rewrite C, S. reflexivity.
Qed.



(** ** Sprite state *)

(** C6, as stated, fails: [SetScale] takes any pair, and a sprite given
    (-1,-1) has negative scale components. *)
Lemma C6_negative_scale_reachable :
  reachable (SetScale (-1) (-1) (Sprite_new 0%N 0%N 0%N))
  /\ ~ scale_nonneg (SetScale (-1) (-1) (Sprite_new 0%N 0%N 0%N)).
Proof.
  split.
  - apply reach_SetScale; [exact I | apply reach_new].
  - unfold scale_nonneg, SetScale; glm_eval. lra.
Qed.

(** C6, amended: in every state reached from construction by setter calls
    whose [SetScale] arguments are all non-negative, both scale components
    are non-negative. *)
Theorem C6_scale_nonneg_when_given_nonneg (s : Sprite) :
  reachable_with (fun w h => 0 <= w /\ 0 <= h) s -> scale_nonneg s.
Proof.
  induction 1 as [sh va tx | x y s _ IH | w h s Hok _ _ | a s _ IH].
  - unfold scale_nonneg, Sprite_new; glm_eval. lra.
  - exact IH.
  - exact Hok.
  - exact IH.
Qed.

Lemma C6_scale_nonneg_witness :
  scale_nonneg (SetRotation 45 (SetScale 200 100 (SetPosition 300 200 (Sprite_new 1%N 2%N 3%N)))).
Proof.
  apply C6_scale_nonneg_when_given_nonneg.
  apply reach_SetRotation, reach_SetScale; [lra | ].
  apply reach_SetPosition, reach_new.
Defined.

(** C7: a new sprite is at (0,0) with scale (100,100) and rotation 0; each
    setter is defined on every argument and stores exactly what it is given;
    the rotation field holds the degrees as given, and the radians appear
    only in the model matrix of [Draw], whose rotation part is built from
    cos and sin of rotation * pi / 180. *)
Theorem C7_construction_and_setters
    (shader quadVAO tex : GLuint) (x y w h a : R) (this : Sprite) :
  position (Sprite_new shader quadVAO tex) = mkvec2 0 0
  /\ scale (Sprite_new shader quadVAO tex) = mkvec2 100 100
  /\ rotation (Sprite_new shader quadVAO tex) = 0
  /\ position (SetPosition x y this) = mkvec2 x y
  /\ scale (SetScale w h this) = mkvec2 w h
  /\ rotation (SetRotation a this) = a
  /\ col0 (Draw_model (SetRotation a this)) =
     mkvec4 (x2 (scale this) * cos (a * (PI / 180)))
            (x2 (scale this) * sin (a * (PI / 180))) 0 0
  /\ col1 (Draw_model (SetRotation a this)) =
     mkvec4 (- (y2 (scale this) * sin (a * (PI / 180))))
            (y2 (scale this) * cos (a * (PI / 180))) 0 0.
Proof.
  repeat split; rewrite Draw_model_closed; reflexivity.
Qed.

(** C10: [Draw] leaves the sprite as it found it, whatever the projection
    and the state of the outside world; [SetPosition] changes nothing but the
    position, [SetScale] nothing but the scale and [SetRotation] nothing but
    the rotation. *)
Theorem C10_frame
    (env : Env) (projection : mat4) (w : World) (x y a : R) (this : Sprite) :
  fst (Draw env projection this w) = this
  /\ (shaderID (SetPosition x y this) = shaderID this
      /\ VAO (SetPosition x y this) = VAO this
      /\ textureID (SetPosition x y this) = textureID this
      /\ scale (SetPosition x y this) = scale this
      /\ rotation (SetPosition x y this) = rotation this)
  /\ (shaderID (SetScale x y this) = shaderID this
      /\ VAO (SetScale x y this) = VAO this
      /\ textureID (SetScale x y this) = textureID this
      /\ position (SetScale x y this) = position this
      /\ rotation (SetScale x y this) = rotation this)
  /\ (shaderID (SetRotation a this) = shaderID this
      /\ VAO (SetRotation a this) = VAO this
      /\ textureID (SetRotation a this) = textureID this
      /\ position (SetRotation a this) = position this
      /\ scale (SetRotation a this) = scale this).
Proof.
  repeat split.
Qed.

(** ** Reasoning about monadic code *)

Lemma spec_ret {A} (a : A) (w : World) (Q : A -> World -> Prop) :
  Q a w -> spec (ret a) w Q.
Proof. exact (fun H => H). Qed.

Lemma spec_bind {A B} (c : M A) (k : A -> M B) (w : World) (Q : B -> World -> Prop) :
  spec c w (fun a w' => spec (k a) w' Q) -> spec (bind c k) w Q.
Proof. unfold spec, bind. destruct (c w) as [a w']. exact (fun H => H). Qed.

Lemma spec_gets {A} (f : World -> A) (w : World) (Q : A -> World -> Prop) :
  Q (f w) w -> spec (gets f) w Q.
Proof. exact (fun H => H). Qed.

Lemma spec_modify (f : World -> World) (w : World) (Q : unit -> World -> Prop) :
  Q tt (f w) -> spec (modify f) w Q.
Proof. exact (fun H => H). Qed.

Lemma spec_any {A} (c : M A) (w : World) (Q : A -> World -> Prop) :
  (forall a w', Q a w') -> spec c w Q.
Proof. intro H; apply H. Qed.

Lemma spec_frames {A} (c : M A) (w : World) (Q : A -> World -> Prop) :
  frames c ->
  (forall a w', window_state w' = window_state w -> Q a w') ->
  spec c w Q.
Proof. intros F H. apply H, F. Qed.

Lemma frames_ret {A} (a : A) : frames (ret a).
Proof. intro w; reflexivity. Qed.

Lemma frames_bind {A B} (c : M A) (k : A -> M B) :
  frames c -> (forall a, frames (k a)) -> frames (bind c k).
Proof.
  intros Fc Fk w. unfold bind. specialize (Fc w).
  destruct (c w) as [a w']. rewrite Fk. exact Fc.
Qed.

Lemma frames_gets {A} (f : World -> A) : frames (gets f).
Proof. intro w; reflexivity. Qed.

Lemma frames_call (name : string) (a : list Arg) : frames (call name a).
Proof. intro w; reflexivity. Qed.

Lemma frames_cerr_put (chunk : string) : frames (cerr_put chunk).
Proof. intro w; reflexivity. Qed.

Lemma frames_count_name : frames (modify count_name).
Proof. intro w; reflexivity. Qed.

Lemma frames_if {A} (b : bool) (c1 c2 : M A) :
  frames c1 -> frames c2 -> frames (if b then c1 else c2).
Proof. destruct b; auto. Qed.

Lemma frames_option {A B} (o : option B) (c1 : B -> M A) (c2 : M A) :
  (forall b, frames (c1 b)) -> frames c2 ->
  frames (match o with Some b => c1 b | None => c2 end).
Proof. destruct o; auto. Qed.

Ltac frames_tac :=
  repeat first
    [ apply frames_bind; [ | intro ]
    | apply frames_ret | apply frames_gets | apply frames_call
    | apply frames_cerr_put | apply frames_count_name
    | apply frames_if | apply frames_option; [ intro | ] ].

Lemma frames_CreateShaderProgram (env : Env) (v f : string) :
  frames (CreateShaderProgram env v f).
Proof.
  unfold CreateShaderProgram, glCreateShader, glCreateProgram, gen, glShaderSource,
    glCompileShader, glGetShaderiv, glGetShaderInfoLog, glAttachShader,
    glLinkProgram, glGetProgramiv, glGetProgramInfoLog, glDeleteShader.
  frames_tac.
Qed.

Lemma frames_loadTexture (env : Env) (filePath : string) :
  frames (loadTexture env filePath).
Proof.
  unfold loadTexture, glGenTextures, gen, glBindTexture, glTexParameteri,
    stbi_load, glTexImage2D, glGenerateMipmap, stbi_image_free.
  frames_tac.
Qed.

Lemma frames_CreateQuadVAO (env : Env) : frames (CreateQuadVAO env).
Proof.
  unfold CreateQuadVAO, glGenVertexArrays, glGenBuffers, gen, glBindVertexArray,
    glBindBuffer, glBufferData, glVertexAttribPointer, glEnableVertexAttribArray.
  frames_tac.
Qed.

Lemma frames_Draw (env : Env) (projection : mat4) (this : Sprite) :
  frames (Draw env projection this).
Proof.
  unfold Draw, glUseProgram, glGetUniformLocation, glUniformMatrix4fv,
    glActiveTexture, glBindTexture, glUniform1i, glBindVertexArray, glDrawArrays.
  frames_tac.
Qed.

Lemma frames_for_each {A} (body : A -> M A) (xs : list A) :
  (forall x, frames (body x)) -> frames (for_each body xs).
Proof.
  intro F. induction xs as [|x rest IH]; cbn [for_each]; frames_tac; auto.
Qed.

(** ** Resource failures *)

(** C9: [CreateShaderProgram] returns the name that [glCreateProgram] handed
    out, whatever the two compile statuses and the link status are; a failed
    stage adds its diagnostic to [cerr] and one query of the info log to the
    calls, and no stage is run twice.  [loadTexture] returns the name that
    [glGenTextures] handed out, whether or not the file decodes; when it does
    not, the diagnostic goes to [cerr], [stbi_load] has been called once and
    nothing is uploaded in place of the image. *)
Theorem C9_resource_failures_are_not_fatal
    (env : Env) (vShaderSrc fShaderSrc filePath : string) (w : World) :
  let vs := gen_name env (names_given w) in
  let fs := gen_name env (S (names_given w)) in
  let prog := gen_name env (S (S (names_given w))) in
  let tex := gen_name env (names_given w) in
  let shaders := CreateShaderProgram env vShaderSrc fShaderSrc w in
  let texture := loadTexture env filePath w in
  fst shaders = prog
  /\ cerr (snd shaders) =
     cerr w
     ++ diagnostic (compile_status env vs)
          "[ERRO] Vertex Shader compilation failed:" (shader_info_log env vs)
     ++ diagnostic (compile_status env fs)
          "[ERRO] Fragment Shader compilation failed:" (shader_info_log env fs)
     ++ diagnostic (link_status env prog)
          "[ERRO] Shader Program link failed:" (program_info_log env prog)
  /\ calls (snd shaders) =
     calls w
     ++ [ mkCall "glCreateShader" [AEnum "GL_VERTEX_SHADER"];
          mkCall "glShaderSource" [AUInt vs; AInt 1; AString vShaderSrc];
          mkCall "glCompileShader" [AUInt vs];
          mkCall "glGetShaderiv" [AUInt vs; AEnum "GL_COMPILE_STATUS"] ]
     ++ (if compile_status env vs then []
         else [mkCall "glGetShaderInfoLog" [AUInt vs; AInt 512]])
     ++ [ mkCall "glCreateShader" [AEnum "GL_FRAGMENT_SHADER"];
          mkCall "glShaderSource" [AUInt fs; AInt 1; AString fShaderSrc];
          mkCall "glCompileShader" [AUInt fs];
          mkCall "glGetShaderiv" [AUInt fs; AEnum "GL_COMPILE_STATUS"] ]
     ++ (if compile_status env fs then []
         else [mkCall "glGetShaderInfoLog" [AUInt fs; AInt 512]])
     ++ [ mkCall "glCreateProgram" [];
          mkCall "glAttachShader" [AUInt prog; AUInt vs];
          mkCall "glAttachShader" [AUInt prog; AUInt fs];
          mkCall "glLinkProgram" [AUInt prog];
          mkCall "glGetProgramiv" [AUInt prog; AEnum "GL_LINK_STATUS"] ]
     ++ (if link_status env prog then []
         else [mkCall "glGetProgramInfoLog" [AUInt prog; AInt 512]])
     ++ [ mkCall "glDeleteShader" [AUInt vs];
          mkCall "glDeleteShader" [AUInt fs] ]
  /\ fst texture = tex
  /\ cerr (snd texture) =
     cerr w
     ++ match stbi_load_result env filePath with
        | Some _ => []
        | None => ["[ERRO] Falha ao carregar textura em: "; filePath; endl]
        end
  /\ calls (snd texture) =
     calls w
     ++ [ mkCall "glGenTextures" [AInt 1];
          mkCall "glBindTexture" [AEnum "GL_TEXTURE_2D"; AUInt tex];
          mkCall "glTexParameteri"
            [AEnum "GL_TEXTURE_2D"; AEnum "GL_TEXTURE_WRAP_S"; AEnum "GL_REPEAT"];
          mkCall "glTexParameteri"
            [AEnum "GL_TEXTURE_2D"; AEnum "GL_TEXTURE_WRAP_T"; AEnum "GL_REPEAT"];
          mkCall "glTexParameteri"
            [AEnum "GL_TEXTURE_2D"; AEnum "GL_TEXTURE_MIN_FILTER";
             AEnum "GL_LINEAR_MIPMAP_LINEAR"];
          mkCall "glTexParameteri"
            [AEnum "GL_TEXTURE_2D"; AEnum "GL_TEXTURE_MAG_FILTER"; AEnum "GL_LINEAR"];
          mkCall "stbi_load" [AString filePath; AInt 0] ]
     ++ match stbi_load_result env filePath with
        | Some img =>
            [ mkCall "glTexImage2D"
                [AEnum "GL_TEXTURE_2D"; AInt 0;
                 AEnum (texture_format (nrChannels img));
                 AInt (width img); AInt (height img); AInt 0;
                 AEnum (texture_format (nrChannels img));
                 AEnum "GL_UNSIGNED_BYTE"; APtr (Some (data img))];
              mkCall "glGenerateMipmap" [AEnum "GL_TEXTURE_2D"] ]
        | None => []
        end
     ++ [ mkCall "stbi_image_free"
            [APtr (option_map data (stbi_load_result env filePath))];
          mkCall "glBindTexture" [AEnum "GL_TEXTURE_2D"; AUInt 0] ].
Proof.
  destruct w as [n p sc kc ce ca]. cbv zeta. cbn [names_given cerr calls].
  unfold diagnostic.
  split; [|split; [|split]].
  1-3: unfold CreateShaderProgram;
    destruct (compile_status env (gen_name env n)) eqn:E1;
    destruct (compile_status env (gen_name env (S n))) eqn:E2;
    destruct (link_status env (gen_name env (S (S n)))) eqn:E3;
    repeat (run; rewrite ?E1, ?E2, ?E3);
    cbn [app]; rewrite <- ?app_assoc; rewrite ?app_nil_r; reflexivity.
  unfold loadTexture.
  destruct (stbi_load_result env filePath) as [img|] eqn:E;
    repeat (run; rewrite ?E);
    cbn [app option_map]; rewrite <- ?app_assoc; rewrite ?app_nil_r;
    repeat split.
Qed.

(** ** The game loop and [main] *)

Lemma window_state_inv (w w' : World) :
  window_state w' = window_state w ->
  polls w' = polls w /\ shouldClose w' = shouldClose w
  /\ keyCallbackSet w' = keyCallbackSet w.
Proof. unfold window_state. intro E. injection E. auto. Qed.

(** With the callback registered, the events of one poll raise the close flag
    exactly when one of them is a closing event; the flag never drops. *)
Lemma dispatch_all_spec (window : N) (es : list InputEvent) :
  forall w, keyCallbackSet w = true ->
  spec (dispatch_all window es) w (fun _ w' =>
    polls w' = polls w /\ keyCallbackSet w' = true
    /\ shouldClose w' = shouldClose w || existsb closing_event es).
Proof.
  induction es as [|e rest IH]; intros w K; cbn [dispatch_all existsb].
  - apply spec_ret. rewrite orb_false_r. auto.
  - apply spec_bind.
    assert (D : spec (dispatch window e) w (fun _ w' =>
              polls w' = polls w /\ keyCallbackSet w' = true
              /\ shouldClose w' = shouldClose w || closing_event e)).
    { destruct e as [key sc action mods|]; cbn [dispatch closing_event].
      - apply spec_bind, spec_gets. rewrite K.
        unfold key_callback.
        destruct ((key =? GLFW_KEY_ESCAPE)%Z && (action =? GLFW_PRESS)%Z).
        + unfold glfwSetWindowShouldClose, call.
          apply spec_bind, spec_modify, spec_modify.
          cbn [polls keyCallbackSet shouldClose set_shouldClose record_call].
          rewrite orb_true_r. auto.
        + apply spec_ret. rewrite orb_false_r. auto.
      - apply spec_modify.
        cbn [polls keyCallbackSet shouldClose set_shouldClose].
        rewrite orb_true_r. auto. }
    unfold spec in D |- *. destruct D as (P1 & K1 & C1).
    specialize (IH _ K1). unfold spec in IH. destruct IH as (P2 & K2 & C2).
    rewrite P2, P1, C2, C1, orb_assoc. auto.
Qed.

Lemma spec_mono {A} (c : M A) (w : World) (Q Q' : A -> World -> Prop) :
  spec c w Q -> (forall a w', Q a w' -> Q' a w') -> spec c w Q'.
Proof. intros H I. apply I, H. Qed.

(** One evaluation of the loop condition and, if the window stays open, one
    pass through the loop body. *)
Lemma game_loop_S (env : Env) (window : N) (projection : mat4) (fuel : nat)
    (sprites : list Sprite) (w : World)
    (Q : option (list Sprite) -> World -> Prop) :
  keyCallbackSet w = true ->
  (shouldClose w = true -> forall w', Q (Some sprites) w') ->
  (shouldClose w = false ->
   forall sprites' w',
     polls w' = S (polls w) ->
     keyCallbackSet w' = true ->
     shouldClose w' = existsb closing_event (pending_events env (polls w)) ->
     spec (game_loop env fuel window projection sprites') w' Q) ->
  spec (game_loop env (S fuel) window projection sprites) w Q.
Proof.
  intros K Hclose Hopen.
  cbn [game_loop]. unfold glfwWindowShouldClose at 1, call.
  apply spec_bind, spec_bind, spec_modify, spec_gets.
  cbn [shouldClose record_call].
  destruct (shouldClose w) eqn:SC; [apply spec_ret; auto|].
  specialize (Hopen eq_refl).
  apply spec_bind. unfold glfwPollEvents, call.
  apply spec_bind, spec_modify, spec_bind, spec_gets, spec_bind, spec_modify.
  cbn [polls record_call].
  eapply spec_mono; [apply dispatch_all_spec; exact K|].
  cbv beta. cbn [polls shouldClose keyCallbackSet count_poll record_call].
  rewrite SC, orb_false_l. intros _ w1 (P1 & K1 & C1).
  apply spec_bind, spec_frames; [apply frames_call|intros _ w2 E2].
  apply spec_bind, spec_frames; [apply frames_call|intros _ w3 E3].
  apply spec_bind, spec_frames;
    [apply frames_for_each; intro; apply frames_Draw|intros sprites' w4 E4].
  apply spec_bind, spec_frames; [apply frames_call|intros _ w5 E5].
  rewrite E4, E3, E2 in E5. apply window_state_inv in E5.
  destruct E5 as (P5 & C5 & K5).
  apply Hopen; congruence.
Qed.

(** If the [k]-th poll from now delivers a closing event, the loop ends
    within [k + 2] evaluations of its condition. *)
Lemma game_loop_closes (env : Env) (window : N) (projection : mat4) :
  forall (k fuel : nat) (sprites : list Sprite) (w : World),
  keyCallbackSet w = true ->
  closes_at env (polls w + k) ->
  (k + 2 <= fuel)%nat ->
  spec (game_loop env fuel window projection sprites) w
       (fun r _ => exists sprites', r = Some sprites').
Proof.
  induction k as [|k IH]; intros fuel sprites w K C F.
  - destruct fuel as [|[|fuel]]; [lia | lia | ].
    rewrite Nat.add_0_r in C.
    apply game_loop_S; [exact K | eauto | ].
    intros _ sprites1 w1 P1 K1 C1.
    apply game_loop_S; [exact K1 | eauto | ].
    intro Open. unfold closes_at in C. congruence.
  - destruct fuel as [|fuel]; [lia|].
    apply game_loop_S; [exact K | eauto | ].
    intros _ sprites1 w1 P1 K1 C1.
    apply IH; [exact K1 | | lia].
    rewrite P1. replace (S (polls w) + k)%nat with (polls w + S k)%nat by lia.
    exact C.
Qed.

(** Symbolic execution of straight-line code. *)
Ltac exec :=
  repeat lazymatch goal with
    | |- spec (ret _) _ _ => apply spec_ret
    | |- spec (bind _ _) _ _ => apply spec_bind
    | |- spec (modify _) _ _ => apply spec_modify
    | |- spec (gets _) _ _ => apply spec_gets
    | |- spec (call _ _) _ _ => unfold call at 1
    | |- spec (cerr_put _) _ _ => unfold cerr_put at 1
    end.

Lemma main_glfwInit_fails (env : Env) (fuel : nat) :
  glfwInit_result env = false ->
  spec (main env fuel) start (fun r w' =>
    r = Some (-1)%Z /\ cerr w' = ["[ERRO] Falha ao inicializar GLFW"%string; endl]).
Proof.
  intro H. unfold main, glfwInit. exec. rewrite H. cbn [negb]. exec.
  split; reflexivity.
Qed.

Lemma main_window_fails (env : Env) (fuel : nat) :
  glfwInit_result env = true ->
  glfwCreateWindow_result env = 0%N ->
  spec (main env fuel) start (fun r w' =>
    r = Some (-1)%Z /\ cerr w' = ["[ERRO] Falha ao criar janela GLFW"%string; endl]).
Proof.
  intros H1 H2. unfold main, glfwInit. exec. rewrite H1. cbn [negb].
  unfold glfwWindowHint, glfwCreateWindow. exec. rewrite H2. cbn [N.eqb].
  unfold glfwTerminate. exec. split; reflexivity.
Qed.

Lemma main_loader_fails (env : Env) (fuel : nat) :
  glfwInit_result env = true ->
  glfwCreateWindow_result env <> 0%N ->
  gladLoadGLLoader_result env = false ->
  spec (main env fuel) start (fun r w' =>
    r = Some (-1)%Z /\ cerr w' = ["[ERRO] Falha ao inicializar GLAD"%string; endl]).
Proof.
  intros H1 H2 H3. apply N.eqb_neq in H2.
  unfold main, glfwInit. exec. rewrite H1. cbn [negb].
  unfold glfwWindowHint, glfwCreateWindow. exec. rewrite H2.
  unfold glfwMakeContextCurrent, glfwSetKeyCallback, gladLoadGLLoader. exec.
  rewrite H3. cbn [negb]. exec. split; reflexivity.
Qed.

Lemma main_closes (env : Env) (k fuel : nat) :
  glfwInit_result env = true ->
  glfwCreateWindow_result env <> 0%N ->
  gladLoadGLLoader_result env = true ->
  closes_at env k ->
  (k + 2 <= fuel)%nat ->
  spec (main env fuel) start (fun r _ => r = Some 0%Z).
Proof.
  intros H1 H2 H3 C F. apply N.eqb_neq in H2.
  unfold main, glfwInit. exec. rewrite H1. cbn [negb].
  unfold glfwWindowHint, glfwCreateWindow. exec. rewrite H2.
  unfold glfwMakeContextCurrent, glfwSetKeyCallback, gladLoadGLLoader. exec.
  rewrite H3. cbn [negb]. unfold glViewport. exec.
  apply spec_frames; [apply frames_CreateShaderProgram|intros shaderProgram w1 E1].
  apply spec_bind, spec_frames; [apply frames_CreateQuadVAO|intros quadVAO w2 E2].
  apply spec_bind, spec_frames; [apply frames_loadTexture|intros tex1 w3 E3].
  apply spec_bind, spec_frames; [apply frames_loadTexture|intros tex2 w4 E4].
  cbv zeta.
  apply spec_bind, spec_frames; [apply frames_call|intros _ w5 E5].
  apply spec_bind, spec_frames; [apply frames_call|intros _ w6 E6].
  rewrite E5, E4, E3, E2, E1 in E6. apply window_state_inv in E6.
  cbn [polls shouldClose keyCallbackSet start set_keyCallback set_shouldClose
       record_call] in E6.
  destruct E6 as (P6 & C6 & K6).
  apply spec_bind.
  eapply spec_mono;
    [apply (game_loop_closes env _ _ k); [exact K6 | rewrite P6; exact C | exact F]|].
  cbv beta. intros r w7 [sprites' ->].
  unfold glDeleteVertexArrays, glDeleteProgram, glfwTerminate. exec. reflexivity.
Qed.

Lemma main_exit_codes (env : Env) (fuel : nat) (w : World) :
  spec (main env fuel) w (fun r _ =>
    r = None \/ r = Some 0%Z \/ r = Some (-1)%Z).
Proof.
  unfold main. cbv zeta.
  repeat lazymatch goal with
    | |- spec (ret _) _ _ => apply spec_ret
    | |- spec (bind _ _) _ _ => apply spec_bind, spec_any; intros
    | |- spec (if ?b then _ else _) _ _ => destruct b
    | |- spec (match ?x with Some _ => _ | None => _ end) _ _ => destruct x
    end; auto.
Qed.

(** C8: [main] returns -1, having written the matching diagnostic to
    standard error, when GLFW fails to initialise, when the window is not
    created and when the GL loader fails; it returns 0 once a poll has
    delivered a closing event (ESC pressed or the window closed by the user),
    given enough evaluations of the loop condition; and it returns no code
    other than 0 and -1. *)
Theorem C8_main_exit_codes (env : Env) :
  (glfwInit_result env = false ->
   forall fuel,
     fst (main env fuel start) = Some (-1)%Z
     /\ cerr (snd (main env fuel start)) =
        ["[ERRO] Falha ao inicializar GLFW"%string; endl])
  /\ (glfwInit_result env = true ->
      glfwCreateWindow_result env = 0%N ->
      forall fuel,
        fst (main env fuel start) = Some (-1)%Z
        /\ cerr (snd (main env fuel start)) =
           ["[ERRO] Falha ao criar janela GLFW"%string; endl])
  /\ (glfwInit_result env = true ->
      glfwCreateWindow_result env <> 0%N ->
      gladLoadGLLoader_result env = false ->
      forall fuel,
        fst (main env fuel start) = Some (-1)%Z
        /\ cerr (snd (main env fuel start)) =
           ["[ERRO] Falha ao inicializar GLAD"%string; endl])
  /\ (glfwInit_result env = true ->
      glfwCreateWindow_result env <> 0%N ->
      gladLoadGLLoader_result env = true ->
      forall k fuel,
        closes_at env k -> (k + 2 <= fuel)%nat ->
        fst (main env fuel start) = Some 0%Z)
  /\ (forall fuel code,
        fst (main env fuel start) = Some code -> code = 0%Z \/ code = (-1)%Z).
Proof.
  split; [intros H fuel; exact (main_glfwInit_fails env fuel H)|].
  split; [intros H1 H2 fuel; exact (main_window_fails env fuel H1 H2)|].
  split; [intros H1 H2 H3 fuel; exact (main_loader_fails env fuel H1 H2 H3)|].
  split; [intros H1 H2 H3 k fuel C F; exact (main_closes env k fuel H1 H2 H3 C F)|].
  intros fuel code E.
  destruct (main_exit_codes env fuel start) as [N | [Z | M1]];
    rewrite E in *; [discriminate | left | right]; congruence.
Qed.

Lemma C8_main_exit_codes_witness :
  closes_at env_esc 0 /\ fst (main env_esc 2 start) = Some 0%Z.
Proof.
  split; [reflexivity|].
  destruct (C8_main_exit_codes env_esc) as (_ & _ & _ & closes & _).
  apply (closes eq_refl) with (k := 0%nat);
    [discriminate | reflexivity | reflexivity | lia].
Defined.


(** * Further properties *)

(** ** Geometry of the placement *)


(** ** Texture coordinates and vertex layout *)

(** X6: for each of the four vertices drawn, the texture coordinate that the
    vertex shader passes on is (x + 0.5, 0.5 - y), with (x, y) the position
    of the vertex in the unit quad, whatever the two matrices are: the top
    edge of the quad gets t = 0 and the bottom edge t = 1. *)
Theorem texture_coordinates_are_flipped (uModel uProjection : mat4) :
  Forall (fun i =>
            TexCoord (vertex_main uModel uProjection (aPos i) (aTexCoord i)) =
            mkvec2 (x3 (aPos i) + 0.5) (0.5 - y3 (aPos i)))
         (drawn_vertices 0 4).
Proof.
  unfold drawn_vertices, seq. repeat constructor;
    cbv [vertex_main TexCoord aPos aTexCoord fetch quadVertices Nat.add Nat.mul
         skipn firstn x2 y2 x3 y3];
    f_equal; lra.
Qed.

(** The calls of [CreateQuadVAO], in full. *)
Lemma CreateQuadVAO_calls (env : Env) (w : World) :
  calls (snd (CreateQuadVAO env w)) =
  calls w ++
  [ mkCall "glGenVertexArrays" [AInt 1];
    mkCall "glGenBuffers" [AInt 1];
    mkCall "glBindVertexArray" [AUInt (gen_name env (names_given w))];
    mkCall "glBindBuffer"
      [AEnum "GL_ARRAY_BUFFER"; AUInt (gen_name env (S (names_given w)))];
    mkCall "glBufferData"
      [AEnum "GL_ARRAY_BUFFER";
       AInt (Z.of_nat (List.length quadVertices) * sizeof_GLfloat);
       AFloats quadVertices; AEnum "GL_STATIC_DRAW"];
    mkCall "glVertexAttribPointer"
      [AUInt 0; AInt 3; AEnum "GL_FLOAT"; AEnum "GL_FALSE";
       AInt (5 * sizeof_GLfloat); AInt 0];
    mkCall "glEnableVertexAttribArray" [AUInt 0];
    mkCall "glVertexAttribPointer"
      [AUInt 1; AInt 2; AEnum "GL_FLOAT"; AEnum "GL_FALSE";
       AInt (5 * sizeof_GLfloat); AInt (3 * sizeof_GLfloat)];
    mkCall "glEnableVertexAttribArray" [AUInt 1];
    mkCall "glBindBuffer" [AEnum "GL_ARRAY_BUFFER"; AUInt 0];
    mkCall "glBindVertexArray" [AUInt 0] ].
Proof.
  destruct w as [n p sc kc ce ca]. unfold CreateQuadVAO. run.
  rewrite <- !app_assoc. reflexivity.
Qed.

(** What the calls of [CreateQuadVAO] and of [Draw] say about the vertex
    data, whatever was called before them. *)
Lemma CreateQuadVAO_layout (env : Env) (w : World) :
  buffer_upload (calls (snd (CreateQuadVAO env w))) = Some (80%Z, quadVertices)
  /\ attrib_pointer 0 (calls (snd (CreateQuadVAO env w))) = Some (3, 20, 0)%Z
  /\ attrib_pointer 1 (calls (snd (CreateQuadVAO env w))) = Some (2, 20, 12)%Z.
Proof.
  rewrite CreateQuadVAO_calls.
  unfold buffer_upload, last_call, attrib_pointer. rewrite !fold_left_app.
  repeat split;
    cbv [fold_left callee args String.eqb Ascii.eqb Bool.eqb N.eqb Pos.eqb
         sizeof_GLfloat quadVertices List.length Z.of_nat Pos.of_succ_nat
         Pos.succ Z.mul Pos.mul Pos.add];
    reflexivity.
Qed.

Lemma Draw_range (env : Env) (projection : mat4) (this : Sprite) (w : World) :
  draw_range (calls (snd (Draw env projection this w))) = Some (0, 4)%Z.
Proof.
  destruct w as [n p sc kc ce ca]. unfold Draw, draw_range, last_call. run.
  rewrite <- !app_assoc, fold_left_app.
  cbv [app fold_left callee args String.eqb Ascii.eqb Bool.eqb]. reflexivity.
Qed.

(** X7: the vertices that [Draw] asks for lie inside the buffer that
    [CreateQuadVAO] uploads, under the layout that [CreateQuadVAO] declares:
    for each vertex of the range of [glDrawArrays], the position attribute
    (index 0) and the texture attribute (index 1) end within the declared byte
    size, which is the size of the data; the vertex after the range would
    not; and reading the buffer under that layout gives the attributes from
    which [aPos] and [aTexCoord] are built. *)
Theorem quad_layout_fits_the_buffer
    (env : Env) (projection : mat4) (this : Sprite) (w w' : World) :
  let setup := calls (snd (CreateQuadVAO env w)) in
  let draw := calls (snd (Draw env projection this w')) in
  (exists first count,
      draw_range draw = Some (first, count)
      /\ (forall i, (first <= i < first + count)%Z ->
                    in_buffer setup 0 i /\ in_buffer setup 1 i)
      /\ ~ in_buffer setup 0 (first + count)
      /\ ~ in_buffer setup 1 (first + count))
  /\ (forall i, attribute setup 0 i = fetch 3 5 0 quadVertices i
                /\ attribute setup 1 i = fetch 2 5 3 quadVertices i).
Proof.
  cbv zeta.
  destruct (CreateQuadVAO_layout env w) as (B & A0 & A1).
  unfold in_buffer, attribute. rewrite B, A0, A1. split.
  - exists 0%Z, 4%Z. rewrite Draw_range.
    change (List.length quadVertices) with 20%nat. unfold sizeof_GLfloat.
    repeat split; try lia; intro H; lia.
  - intro i. split; reflexivity.
Qed.

(** ** Keyboard *)

(** X8: [key_callback] raises the close flag when ESC is pressed, and leaves
    the world exactly as it was for any other key and for any other action
    on ESC (release, repeat). *)
Theorem key_callback_closes_on_escape_press_only
    (window : N) (key scancode action mods : Z) (w : World) :
  (key = GLFW_KEY_ESCAPE -> action = GLFW_PRESS ->
   shouldClose (snd (key_callback window key scancode action mods w)) = true)
  /\ (key <> GLFW_KEY_ESCAPE \/ action <> GLFW_PRESS ->
      snd (key_callback window key scancode action mods w) = w).
Proof.
  unfold key_callback. split.
  - intros -> ->. reflexivity.
  - intros H.
    destruct (Z.eqb_spec key GLFW_KEY_ESCAPE), (Z.eqb_spec action GLFW_PRESS);
      cbn [andb]; try reflexivity.
    destruct H; contradiction.
Qed.

Lemma key_callback_witness :
  shouldClose (snd (key_callback 1 GLFW_KEY_ESCAPE 0 GLFW_PRESS 0 start)) = true
  /\ snd (key_callback 1 GLFW_KEY_ESCAPE 0 0 0 start) = start.
Proof.
  split.
  - apply (key_callback_closes_on_escape_press_only 1 GLFW_KEY_ESCAPE 0 GLFW_PRESS 0 start);
      reflexivity.
  - apply (key_callback_closes_on_escape_press_only 1 GLFW_KEY_ESCAPE 0 0 0 start).
    right. discriminate.
Defined.

(** ** What the program's functions leave alone *)

Lemma keeps_ret {T A} (f : World -> T) (a : A) : keeps f (ret a).
Proof. intro w; reflexivity. Qed.

Lemma keeps_bind {T A B} (f : World -> T) (c : M A) (k : A -> M B) :
  keeps f c -> (forall a, keeps f (k a)) -> keeps f (bind c k).
Proof.
  intros Fc Fk w. unfold bind. specialize (Fc w).
  destruct (c w) as [a w']. rewrite Fk. exact Fc.
Qed.

Lemma keeps_gets {T A} (f : World -> T) (g : World -> A) : keeps f (gets g).
Proof. intro w; reflexivity. Qed.

Lemma keeps_modify {T} (f : World -> T) (g : World -> World) :
  (forall w, f (g w) = f w) -> keeps f (modify g).
Proof. intros H w. apply H. Qed.

Lemma keeps_if {T A} (f : World -> T) (b : bool) (c1 c2 : M A) :
  keeps f c1 -> keeps f c2 -> keeps f (if b then c1 else c2).
Proof. destruct b; auto. Qed.

Lemma keeps_option {T A B} (f : World -> T) (o : option B)
    (c1 : B -> M A) (c2 : M A) :
  (forall b, keeps f (c1 b)) -> keeps f c2 ->
  keeps f (match o with Some b => c1 b | None => c2 end).
Proof. destruct o; auto. Qed.

Lemma keeps_for_each {T A} (f : World -> T) (body : A -> M A) (xs : list A) :
  (forall x, keeps f (body x)) -> keeps f (for_each body xs).
Proof.
  intro F. induction xs as [|x rest IH]; cbn [for_each].
  - apply keeps_ret.
  - apply keeps_bind; [apply F|intro]. apply keeps_bind; [apply IH|intro].
    apply keeps_ret.
Qed.

(** Recording a call adds one to the count of its name and nothing to the
    others. *)
Lemma count_calls_record (name : string) (c : Call) (w : World) :
  count_calls name (record_call c w) =
  (count_calls name w + (if String.eqb (callee c) name then 1 else 0))%nat.
Proof.
  unfold count_calls, record_call. cbn [calls].
  rewrite filter_app, length_app. cbn [filter].
  destruct (String.eqb (callee c) name); reflexivity.
Qed.

Lemma keeps_count_call (name other : string) (a : list Arg) :
  String.eqb other name = false -> keeps (count_calls name) (call other a).
Proof.
  intros H w. unfold call, modify. cbn [snd].
  rewrite count_calls_record. cbn [callee]. rewrite H. apply Nat.add_0_r.
Qed.

(** Syntax-directed proof that a computation keeps an observation. *)
Ltac keeps_tac :=
  repeat lazymatch goal with
    | |- keeps _ (ret _) => apply keeps_ret
    | |- keeps _ (bind _ _) => apply keeps_bind; [ | intro ]
    | |- keeps _ (gets _) => apply keeps_gets
    | |- keeps (count_calls _) (call _ _) => apply keeps_count_call; reflexivity
    | |- keeps _ (call _ _) => unfold call at 1
    | |- keeps _ (cerr_put _) => unfold cerr_put at 1
    | |- keeps _ (modify _) => apply keeps_modify; intro; reflexivity
    | |- keeps _ (if _ then _ else _) => apply keeps_if
    | |- keeps _ (match _ with Some _ => _ | None => _ end) =>
        apply keeps_option; [ intro | ]
    end.

Ltac unfold_gl :=
  unfold glCreateShader, glCreateProgram, glGenTextures, glGenVertexArrays,
    glGenBuffers, gen, glGetShaderiv, glGetProgramiv, glGetShaderInfoLog,
    glGetProgramInfoLog, glGetUniformLocation, stbi_load, glShaderSource,
    glCompileShader, glAttachShader, glLinkProgram, glDeleteShader,
    glBindTexture, glTexParameteri, glTexImage2D, glGenerateMipmap,
    stbi_image_free, glBindVertexArray, glBindBuffer, glBufferData,
    glVertexAttribPointer, glEnableVertexAttribArray, glUseProgram,
    glUniformMatrix4fv, glUniform1i, glActiveTexture, glDrawArrays,
    glClearColor, glClear, glfwSwapBuffers, glfwPollEvents,
    glfwWindowShouldClose, glfwSetWindowShouldClose.

(** [Draw] writes nothing to standard error, creates no object, presents no
    frame and issues one draw call. *)
Lemma Draw_keeps_cerr (env : Env) (projection : mat4) (this : Sprite) :
  keeps cerr (Draw env projection this).
Proof. unfold Draw. unfold_gl. keeps_tac. Qed.

Lemma Draw_keeps_presented (env : Env) (projection : mat4) (this : Sprite) :
  keeps (count_calls "glfwSwapBuffers") (Draw env projection this).
Proof. unfold Draw. unfold_gl. keeps_tac. Qed.

Lemma Draw_draws_once (env : Env) (projection : mat4) (this : Sprite) (w : World) :
  count_calls "glDrawArrays" (snd (Draw env projection this w)) =
  S (count_calls "glDrawArrays" w).
Proof.
  destruct w as [n p sc kc ce ca].
  unfold Draw, count_calls. run.
  rewrite <- !app_assoc, filter_app, length_app. cbn [app].
  cbv [filter callee String.eqb Ascii.eqb Bool.eqb List.length].
  apply Nat.add_1_r.
Qed.

Lemma Draw_returns_this (env : Env) (projection : mat4) (this : Sprite) (w : World) :
  fst (Draw env projection this w) = this.
Proof. reflexivity. Qed.

Lemma spec_facts {A} (c : M A) (w : World) (Q : A -> World -> Prop) :
  (forall a w', a = fst (c w) -> w' = snd (c w) -> Q a w') -> spec c w Q.
Proof. intro H. apply H; reflexivity. Qed.

Lemma dispatch_all_keeps_cerr (window : N) (es : list InputEvent) :
  keeps cerr (dispatch_all window es).
Proof.
  induction es as [|[key sc action mods|] rest IH]; cbn [dispatch_all dispatch];
    unfold key_callback; unfold_gl; keeps_tac; exact IH.
Qed.

Lemma dispatch_all_keeps_count (name : string) (window : N) (es : list InputEvent) :
  String.eqb "glfwSetWindowShouldClose" name = false ->
  keeps (count_calls name) (dispatch_all window es).
Proof.
  intro H.
  induction es as [|[key sc action mods|] rest IH]; cbn [dispatch_all dispatch];
    unfold key_callback; unfold_gl; keeps_tac; try exact IH.
  apply keeps_count_call. exact H.
Qed.

(** One poll: the counter advances and, with the callback registered, the
    close flag rises exactly when a closing event is delivered. *)
Lemma glfwPollEvents_window (env : Env) (window : N) (w : World) :
  keyCallbackSet w = true ->
  polls (snd (glfwPollEvents env window w)) = S (polls w)
  /\ keyCallbackSet (snd (glfwPollEvents env window w)) = true
  /\ shouldClose (snd (glfwPollEvents env window w)) =
     shouldClose w || existsb closing_event (pending_events env (polls w)).
Proof.
  intro K.
  change (spec (glfwPollEvents env window) w (fun _ w' =>
            polls w' = S (polls w) /\ keyCallbackSet w' = true
            /\ shouldClose w' =
               shouldClose w || existsb closing_event (pending_events env (polls w)))).
  unfold glfwPollEvents, call.
  apply spec_bind, spec_modify, spec_bind, spec_gets, spec_bind, spec_modify.
  cbn [polls record_call].
  eapply spec_mono; [apply dispatch_all_spec; exact K|].
  cbv beta. cbn [polls shouldClose keyCallbackSet count_poll record_call]. auto.
Qed.

Lemma glfwPollEvents_keeps_cerr (env : Env) (window : N) :
  keeps cerr (glfwPollEvents env window).
Proof.
  unfold glfwPollEvents. keeps_tac. apply dispatch_all_keeps_cerr.
Qed.

Lemma glfwPollEvents_keeps_count (env : Env) (name : string) (window : N) :
  String.eqb "glfwPollEvents" name = false ->
  String.eqb "glfwSetWindowShouldClose" name = false ->
  keeps (count_calls name) (glfwPollEvents env window).
Proof.
  intros H1 H2. unfold glfwPollEvents.
  apply keeps_bind; [apply keeps_count_call; exact H1|intro].
  keeps_tac. apply dispatch_all_keeps_count. exact H2.
Qed.

(** Drawing a vector of sprites returns the vector as it was, writes nothing
    to standard error, leaves the window state alone and issues one draw call
    per sprite. *)
Lemma for_each_Draw_summary (env : Env) (projection : mat4) (xs : list Sprite) :
  forall w,
  fst (for_each (Draw env projection) xs w) = xs
  /\ window_state (snd (for_each (Draw env projection) xs w)) = window_state w
  /\ cerr (snd (for_each (Draw env projection) xs w)) = cerr w
  /\ count_calls "glfwSwapBuffers" (snd (for_each (Draw env projection) xs w)) =
     count_calls "glfwSwapBuffers" w
  /\ count_calls "glDrawArrays" (snd (for_each (Draw env projection) xs w)) =
     (count_calls "glDrawArrays" w + List.length xs)%nat.
Proof.
  induction xs as [|x rest IH]; intro w.
  - cbn [for_each List.length]. unfold ret. cbn [fst snd].
    rewrite Nat.add_0_r. auto.
  - change (spec (for_each (Draw env projection) (x :: rest)) w (fun r w' =>
              r = x :: rest /\ window_state w' = window_state w
              /\ cerr w' = cerr w
              /\ count_calls "glfwSwapBuffers" w' = count_calls "glfwSwapBuffers" w
              /\ count_calls "glDrawArrays" w' =
                 (count_calls "glDrawArrays" w + List.length (x :: rest))%nat)).
    cbn [for_each]. apply spec_bind, spec_facts. intros x' w1 -> ->.
    rewrite Draw_returns_this.
    apply spec_bind, spec_facts. intros rest' w2 -> ->.
    apply spec_ret.
    destruct (IH (snd (Draw env projection x w))) as (R & W & E & P & D).
    rewrite R, W, E, P, D.
    rewrite frames_Draw, Draw_keeps_cerr, Draw_keeps_presented, Draw_draws_once.
    cbn [List.length]. repeat split. lia.
Qed.

(** ** The game loop, frame by frame *)

(** The loop condition finds the flag up: the loop ends with the sprites it
    was given. *)
Lemma game_loop_closed_step (env : Env) (window : N) (projection : mat4)
    (fuel : nat) (sprites : list Sprite) (w : World)
    (Q : option (list Sprite) -> World -> Prop) :
  shouldClose w = true ->
  Q (Some sprites)
    (record_call (mkCall "glfwWindowShouldClose" [AUInt window]) w) ->
  spec (game_loop env (S fuel) window projection sprites) w Q.
Proof.
  intros SC H. cbn [game_loop]. unfold glfwWindowShouldClose at 1, call.
  apply spec_bind, spec_bind, spec_modify, spec_gets.
  cbn [shouldClose record_call]. rewrite SC. apply spec_ret. exact H.
Qed.

(** The loop condition finds the flag down: one frame is polled, drawn and
    presented, and the loop goes on with the same sprites. *)
Lemma game_loop_open_step (env : Env) (window : N) (projection : mat4)
    (fuel : nat) (sprites : list Sprite) (w : World)
    (Q : option (list Sprite) -> World -> Prop) :
  keyCallbackSet w = true ->
  shouldClose w = false ->
  (forall w',
     polls w' = S (polls w) ->
     keyCallbackSet w' = true ->
     shouldClose w' = existsb closing_event (pending_events env (polls w)) ->
     cerr w' = cerr w ->
     count_calls "glfwSwapBuffers" w' = S (count_calls "glfwSwapBuffers" w) ->
     count_calls "glDrawArrays" w' =
       (count_calls "glDrawArrays" w + List.length sprites)%nat ->
     spec (game_loop env fuel window projection sprites) w' Q) ->
  spec (game_loop env (S fuel) window projection sprites) w Q.
Proof.
  intros K SC H. cbn [game_loop]. unfold glfwWindowShouldClose at 1, call.
  apply spec_bind, spec_bind, spec_modify, spec_gets.
  set (w0 := record_call (mkCall "glfwWindowShouldClose" [AUInt window]) w).
  change (shouldClose w0) with (shouldClose w). rewrite SC.
  assert (K0 : keyCallbackSet w0 = true) by exact K.
  apply spec_bind, spec_facts. intros _ w1 _ E1.
  destruct (glfwPollEvents_window env window w0 K0) as (P1 & K1 & C1).
  pose proof (glfwPollEvents_keeps_cerr env window w0) as S1.
  pose proof (glfwPollEvents_keeps_count env "glfwSwapBuffers" window
                eq_refl eq_refl w0) as B1.
  pose proof (glfwPollEvents_keeps_count env "glDrawArrays" window
                eq_refl eq_refl w0) as D1.
  rewrite <- E1 in P1, K1, C1, S1, B1, D1. clear E1.
  change (polls w0) with (polls w) in *.
  change (shouldClose w0) with (shouldClose w) in C1.
  change (cerr w0) with (cerr w) in S1.
  assert (B0 : count_calls "glfwSwapBuffers" w0 = count_calls "glfwSwapBuffers" w)
    by (unfold w0; rewrite count_calls_record; apply Nat.add_0_r).
  assert (D0 : count_calls "glDrawArrays" w0 = count_calls "glDrawArrays" w)
    by (unfold w0; rewrite count_calls_record; apply Nat.add_0_r).
  rewrite B0 in B1. rewrite D0 in D1. rewrite SC in C1. cbn [orb] in C1.
  clearbody w0.
  apply spec_bind, spec_facts. intros _ w2 _ E2.
  assert (F2 : window_state w2 = window_state w1 /\ cerr w2 = cerr w1
               /\ count_calls "glfwSwapBuffers" w2 = count_calls "glfwSwapBuffers" w1
               /\ count_calls "glDrawArrays" w2 = count_calls "glDrawArrays" w1).
  { subst w2. unfold glClearColor, call, modify. cbn [snd].
    rewrite !count_calls_record. repeat split; apply Nat.add_0_r. }
  clear E2. destruct F2 as (W2 & S2 & B2 & D2).
  apply spec_bind, spec_facts. intros _ w3 _ E3.
  assert (F3 : window_state w3 = window_state w2 /\ cerr w3 = cerr w2
               /\ count_calls "glfwSwapBuffers" w3 = count_calls "glfwSwapBuffers" w2
               /\ count_calls "glDrawArrays" w3 = count_calls "glDrawArrays" w2).
  { subst w3. unfold glClear, call, modify. cbn [snd].
    rewrite !count_calls_record. repeat split; apply Nat.add_0_r. }
  clear E3. destruct F3 as (W3 & S3 & B3 & D3).
  apply spec_bind, spec_facts. intros sprites' w4 Es E4.
  destruct (for_each_Draw_summary env projection sprites w3)
    as (R4 & W4 & S4 & B4 & D4).
  rewrite <- E4 in W4, S4, B4, D4. rewrite R4 in Es. subst sprites'. clear E4 R4.
  apply spec_bind, spec_facts. intros _ w5 _ E5.
  assert (F5 : window_state w5 = window_state w4 /\ cerr w5 = cerr w4
               /\ count_calls "glfwSwapBuffers" w5
                  = S (count_calls "glfwSwapBuffers" w4)
               /\ count_calls "glDrawArrays" w5 = count_calls "glDrawArrays" w4).
  { subst w5. unfold glfwSwapBuffers, call, modify. cbn [snd].
    rewrite !count_calls_record. repeat split;
      [apply Nat.add_1_r | apply Nat.add_0_r]. }
  clear E5. destruct F5 as (W5 & S5 & B5 & D5).
  rewrite W4, W3, W2 in W5. apply window_state_inv in W5.
  destruct W5 as (P5 & C5 & K5).
  apply H; congruence.
Qed.

(** X9: the game loop never changes the sprites: when it ends, it ends with
    the vector it was given. *)
Theorem game_loop_returns_its_sprites (env : Env) (window : N) (projection : mat4)
    (fuel : nat) (sprites : list Sprite) (w : World) :
  fst (game_loop env fuel window projection sprites w) = None
  \/ fst (game_loop env fuel window projection sprites w) = Some sprites.
Proof.
  change (spec (game_loop env fuel window projection sprites) w
            (fun r _ => r = None \/ r = Some sprites)).
  revert w. induction fuel as [|fuel IH]; intro w; cbn [game_loop].
  - apply spec_ret. left. reflexivity.
  - apply spec_bind, spec_any. intros closing w1.
    destruct closing; [apply spec_ret; right; reflexivity|].
    apply spec_bind, spec_any. intros _ w2.
    apply spec_bind, spec_any. intros _ w3.
    apply spec_bind, spec_any. intros _ w4.
    apply spec_bind, spec_facts. intros sprites' w5 -> _.
    rewrite (proj1 (for_each_Draw_summary env projection sprites w4)).
    apply spec_bind, spec_any. intros _ w6. apply IH.
Qed.

(** While no closing event arrives the loop does not end. *)
Lemma game_loop_stays_open (env : Env) (window : N) (projection : mat4)
    (sprites : list Sprite) :
  (forall k, ~ closes_at env k) ->
  forall fuel w,
  keyCallbackSet w = true ->
  shouldClose w = false ->
  spec (game_loop env fuel window projection sprites) w (fun r _ => r = None).
Proof.
  intros Open. induction fuel as [|fuel IH]; intros w K SC.
  - apply spec_ret. reflexivity.
  - apply game_loop_open_step; [exact K | exact SC | ].
    intros w' _ K' C' _ _ _. apply IH; [exact K'|].
    rewrite C'. specialize (Open (polls w)). unfold closes_at in Open.
    destruct (existsb closing_event (pending_events env (polls w)));
      [contradiction Open; reflexivity | reflexivity].
Qed.

(** If the first closing event comes with the [k]-th poll from now, the loop
    ends after [k + 1] frames. *)
Lemma game_loop_frames (env : Env) (window : N) (projection : mat4)
    (sprites : list Sprite) :
  forall (k fuel : nat) (w : World),
  keyCallbackSet w = true ->
  shouldClose w = false ->
  closes_at env (polls w + k) ->
  (forall j, (j < k)%nat -> ~ closes_at env (polls w + j)) ->
  (k + 2 <= fuel)%nat ->
  spec (game_loop env fuel window projection sprites) w (fun r w' =>
    r = Some sprites
    /\ polls w' = (polls w + (k + 1))%nat
    /\ cerr w' = cerr w
    /\ count_calls "glfwSwapBuffers" w' =
       (count_calls "glfwSwapBuffers" w + (k + 1))%nat
    /\ count_calls "glDrawArrays" w' =
       (count_calls "glDrawArrays" w + (k + 1) * List.length sprites)%nat).
Proof.
  induction k as [|k IH]; intros fuel w K SC C Before F.
  - destruct fuel as [|[|fuel]]; [lia | lia | ].
    rewrite Nat.add_0_r in C. unfold closes_at in C.
    apply game_loop_open_step; [exact K | exact SC | ].
    intros w' P' K' C' S' B' D'. rewrite C in C'.
    apply game_loop_closed_step; [exact C'|].
    rewrite !count_calls_record. cbn [polls cerr record_call callee].
    cbv [String.eqb Ascii.eqb Bool.eqb].
    repeat split; try congruence; lia.
  - destruct fuel as [|fuel]; [lia|].
    apply game_loop_open_step; [exact K | exact SC | ].
    intros w' P' K' C' S' B' D'.
    assert (SC' : shouldClose w' = false).
    { rewrite C'. specialize (Before 0%nat ltac:(lia)).
      rewrite Nat.add_0_r in Before. unfold closes_at in Before.
      destruct (existsb closing_event (pending_events env (polls w)));
        [contradiction Before; reflexivity | reflexivity]. }
    eapply spec_mono.
    + apply (IH fuel w' K' SC').
      * rewrite P'. replace (S (polls w) + k)%nat with (polls w + S k)%nat by lia.
        exact C.
      * intros j Hj. rewrite P'.
        replace (S (polls w) + j)%nat with (polls w + S j)%nat by lia.
        apply Before. lia.
      * lia.
    + cbv beta. intros r w'' (R & P & S & B & D).
      rewrite R, P, S, B, D, P', S', B', D'. repeat split; lia.
Qed.

(** ** [main] past initialisation *)

Lemma CreateShaderProgram_cerr (env : Env) (v f : string) (w : World) :
  cerr (snd (CreateShaderProgram env v f w)) =
  cerr w
  ++ diagnostic (compile_status env (gen_name env (names_given w)))
       "[ERRO] Vertex Shader compilation failed:"
       (shader_info_log env (gen_name env (names_given w)))
  ++ diagnostic (compile_status env (gen_name env (S (names_given w))))
       "[ERRO] Fragment Shader compilation failed:"
       (shader_info_log env (gen_name env (S (names_given w))))
  ++ diagnostic (link_status env (gen_name env (S (S (names_given w)))))
       "[ERRO] Shader Program link failed:"
       (program_info_log env (gen_name env (S (S (names_given w))))).
Proof.
  destruct w as [n p sc kc ce ca]. cbn [names_given cerr].
  unfold CreateShaderProgram, diagnostic.
  destruct (compile_status env (gen_name env n)) eqn:E1;
  destruct (compile_status env (gen_name env (S n))) eqn:E2;
  destruct (link_status env (gen_name env (S (S n)))) eqn:E3;
  repeat (run; rewrite ?E1, ?E2, ?E3);
  cbn [app]; rewrite <- ?app_assoc; rewrite ?app_nil_r; reflexivity.
Qed.

Lemma loadTexture_cerr (env : Env) (filePath : string) (w : World) :
  cerr (snd (loadTexture env filePath w)) = cerr w ++ texture_diagnostic env filePath.
Proof.
  destruct w as [n p sc kc ce ca]. cbn [cerr].
  unfold loadTexture, texture_diagnostic.
  destruct (stbi_load_result env filePath) as [img|] eqn:E;
  repeat (run; rewrite ?E);
  cbn [app]; rewrite <- ?app_assoc; rewrite ?app_nil_r; reflexivity.
Qed.

Lemma CreateQuadVAO_keeps_cerr (env : Env) : keeps cerr (CreateQuadVAO env).
Proof. unfold CreateQuadVAO. unfold_gl. keeps_tac. Qed.

(** Setting up the resources presents no frame and draws nothing. *)
Lemma setup_keeps_counts (env : Env) (name : string) :
  name = "glfwSwapBuffers"%string \/ name = "glDrawArrays"%string ->
  (forall v f, keeps (count_calls name) (CreateShaderProgram env v f))
  /\ keeps (count_calls name) (CreateQuadVAO env)
  /\ (forall filePath, keeps (count_calls name) (loadTexture env filePath)).
Proof.
  intros [-> | ->]; repeat split; intros;
    unfold CreateShaderProgram, CreateQuadVAO, loadTexture; unfold_gl; keeps_tac.
Qed.

(** [main] with every initialisation step succeeding: what holds when the
    game loop is entered. *)
Lemma main_reaches_loop (env : Env) (fuel : nat) (Q : option Z -> World -> Prop) :
  glfwInit_result env = true ->
  glfwCreateWindow_result env <> 0%N ->
  gladLoadGLLoader_result env = true ->
  (forall shaderProgram quadVAO tex1 tex2 w,
     polls w = 0%nat ->
     shouldClose w = false ->
     keyCallbackSet w = true ->
     cerr w = main_diagnostics env ->
     count_calls "glfwSwapBuffers" w = 0%nat ->
     count_calls "glDrawArrays" w = 0%nat ->
     spec (finished <- game_loop env fuel (glfwCreateWindow_result env)
                         main_projection
                         [sprite1 shaderProgram quadVAO tex1;
                          sprite2 shaderProgram quadVAO tex2] ;;
           match finished with
           | None => ret None
           | Some _ =>
               glDeleteVertexArrays 1 quadVAO ;;
               glDeleteProgram shaderProgram ;;
               glfwTerminate ;;
               ret (Some 0%Z)
           end) w Q) ->
  spec (main env fuel) start Q.
Proof.
  intros H1 H2 H3 H. apply N.eqb_neq in H2.
  unfold main, glfwInit. exec. rewrite H1. cbn [negb].
  unfold glfwWindowHint, glfwCreateWindow. exec. rewrite H2.
  unfold glfwMakeContextCurrent, glfwSetKeyCallback, gladLoadGLLoader. exec.
  rewrite H3. cbn [negb]. unfold glViewport. exec.
  match goal with |- spec _ ?w _ => set (w0 := w) end.
  assert (W0 : window_state w0 = (0%nat, false, true)) by reflexivity.
  assert (N0 : names_given w0 = 0%nat) by reflexivity.
  assert (S0 : cerr w0 = []) by reflexivity.
  assert (B0 : count_calls "glfwSwapBuffers" w0 = 0%nat) by reflexivity.
  assert (D0 : count_calls "glDrawArrays" w0 = 0%nat) by reflexivity.
  clearbody w0.
  destruct (setup_keeps_counts env "glfwSwapBuffers" (or_introl eq_refl))
    as (Bs & Bq & Bt).
  destruct (setup_keeps_counts env "glDrawArrays" (or_intror eq_refl))
    as (Ds & Dq & Dt).
  apply spec_facts. intros shaderProgram w1 _ E1.
  pose proof (frames_CreateShaderProgram env vertexShaderSource fragmentShaderSource w0) as W1.
  pose proof (CreateShaderProgram_cerr env vertexShaderSource fragmentShaderSource w0) as S1.
  pose proof (Bs vertexShaderSource fragmentShaderSource w0) as B1.
  pose proof (Ds vertexShaderSource fragmentShaderSource w0) as D1.
  rewrite <- E1 in W1, S1, B1, D1. clear E1. rewrite N0, S0 in S1. cbn [app] in S1.
  apply spec_bind, spec_facts. intros quadVAO w2 _ E2.
  pose proof (frames_CreateQuadVAO env w1) as W2.
  pose proof (CreateQuadVAO_keeps_cerr env w1) as S2.
  pose proof (Bq w1) as B2. pose proof (Dq w1) as D2.
  rewrite <- E2 in W2, S2, B2, D2. clear E2.
  apply spec_bind, spec_facts. intros tex1 w3 _ E3.
  pose proof (frames_loadTexture env "../assets/sprites/microbio.png" w2) as W3.
  pose proof (loadTexture_cerr env "../assets/sprites/microbio.png" w2) as S3.
  pose proof (Bt "../assets/sprites/microbio.png"%string w2) as B3.
  pose proof (Dt "../assets/sprites/microbio.png"%string w2) as D3.
  rewrite <- E3 in W3, S3, B3, D3. clear E3.
  apply spec_bind, spec_facts. intros tex2 w4 _ E4.
  pose proof (frames_loadTexture env "../assets/sprites/enemies-spritesheet1.png" w3) as W4.
  pose proof (loadTexture_cerr env "../assets/sprites/enemies-spritesheet1.png" w3) as S4.
  pose proof (Bt "../assets/sprites/enemies-spritesheet1.png"%string w3) as B4.
  pose proof (Dt "../assets/sprites/enemies-spritesheet1.png"%string w3) as D4.
  rewrite <- E4 in W4, S4, B4, D4. clear E4.
  cbv zeta. rewrite main_sprites. fold main_projection.
  apply spec_bind. unfold glEnable, call at 1. apply spec_modify.
  apply spec_bind. unfold glBlendFunc, call at 1. apply spec_modify.
  rewrite W3, W2, W1, W0 in W4. unfold window_state in W4.
  injection W4 as P4 C4 K4.
  apply (H shaderProgram quadVAO tex1 tex2).
  - exact P4.
  - exact C4.
  - exact K4.
  - cbn [cerr record_call]. rewrite S4, S3, S2, S1. unfold main_diagnostics.
    rewrite <- !app_assoc. reflexivity.
  - rewrite !count_calls_record. cbn [callee]. cbv [String.eqb Ascii.eqb Bool.eqb].
    rewrite B4, B3, B2, B1. lia.
  - rewrite !count_calls_record. cbn [callee]. cbv [String.eqb Ascii.eqb Bool.eqb].
    rewrite D4, D3, D2, D1. lia.
Qed.

Lemma game_loop_keeps_cerr (env : Env) (window : N) (projection : mat4) :
  forall fuel sprites, keeps cerr (game_loop env fuel window projection sprites).
Proof.
  induction fuel as [|fuel IH]; intro sprites; cbn [game_loop].
  - apply keeps_ret.
  - unfold glfwWindowShouldClose, glClearColor, glClear, glfwSwapBuffers.
    keeps_tac.
    + apply glfwPollEvents_keeps_cerr.
    + apply keeps_for_each. intro. apply Draw_keeps_cerr.
    + apply IH.
Qed.

(** X10: once initialisation has succeeded, [main] does not return as long
    as no poll delivers a closing event: keys other than ESC, releases of ESC
    and the absence of events keep the loop running, whatever the bound on
    the number of iterations. *)
Theorem main_runs_until_a_closing_event (env : Env) :
  glfwInit_result env = true ->
  glfwCreateWindow_result env <> 0%N ->
  gladLoadGLLoader_result env = true ->
  (forall k, ~ closes_at env k) ->
  forall fuel, fst (main env fuel start) = None.
Proof.
  intros H1 H2 H3 Open fuel.
  change (spec (main env fuel) start (fun r _ => r = None)).
  apply main_reaches_loop; [exact H1 | exact H2 | exact H3 | ].
  intros shaderProgram quadVAO tex1 tex2 w P C K _ _ _.
  apply spec_bind. eapply spec_mono.
  - apply game_loop_stays_open; [exact Open | exact K | exact C].
  - cbv beta. intros r w' ->. apply spec_ret. reflexivity.
Qed.

Lemma main_runs_until_a_closing_event_witness :
  fst (main env_idle 5 start) = None.
Proof.
  apply (main_runs_until_a_closing_event env_idle);
    [reflexivity | discriminate | reflexivity | ].
  intros k H. discriminate H.
Defined.

(** X11: if poll [k] is the first to deliver a closing event, [main] returns 0
    after exactly [k + 1] polls and [k + 1] presented frames, each with one
    draw call for each of the two sprites: the frame in which the closing
    event is polled is still drawn and presented. *)
Theorem main_presents_a_frame_for_every_poll (env : Env) (k fuel : nat) :
  glfwInit_result env = true ->
  glfwCreateWindow_result env <> 0%N ->
  gladLoadGLLoader_result env = true ->
  first_close env k ->
  (k + 2 <= fuel)%nat ->
  fst (main env fuel start) = Some 0%Z
  /\ polls (snd (main env fuel start)) = (k + 1)%nat
  /\ count_calls "glfwSwapBuffers" (snd (main env fuel start)) = (k + 1)%nat
  /\ count_calls "glDrawArrays" (snd (main env fuel start)) = (2 * (k + 1))%nat.
Proof.
  intros H1 H2 H3 [C Before] F.
  change (spec (main env fuel) start (fun r w' =>
            r = Some 0%Z /\ polls w' = (k + 1)%nat
            /\ count_calls "glfwSwapBuffers" w' = (k + 1)%nat
            /\ count_calls "glDrawArrays" w' = (2 * (k + 1))%nat)).
  apply main_reaches_loop; [exact H1 | exact H2 | exact H3 | ].
  intros shaderProgram quadVAO tex1 tex2 w P SC K _ B D.
  apply spec_bind. eapply spec_mono.
  - apply (game_loop_frames env _ _ _ k fuel w K SC).
    + rewrite P. exact C.
    + intros j Hj. rewrite P. apply Before. exact Hj.
    + exact F.
  - cbv beta. intros r w' (-> & P' & _ & B' & D').
    unfold glDeleteVertexArrays, glDeleteProgram, glfwTerminate. exec.
    rewrite !count_calls_record. cbn [polls record_call callee List.length] in *.
    cbv [String.eqb Ascii.eqb Bool.eqb].
    rewrite P', B', D', P, B, D. repeat split; lia.
Qed.

Lemma main_presents_a_frame_witness :
  fst (main env_esc 2 start) = Some 0%Z
  /\ polls (snd (main env_esc 2 start)) = 1%nat
  /\ count_calls "glfwSwapBuffers" (snd (main env_esc 2 start)) = 1%nat
  /\ count_calls "glDrawArrays" (snd (main env_esc 2 start)) = 2%nat.
Proof.
  apply (main_presents_a_frame_for_every_poll env_esc 0 2);
    [reflexivity | discriminate | reflexivity | | lia].
  split; [reflexivity | intros j Hj; lia].
Defined.

(** X12: once initialisation has succeeded, all that [main] ever writes to
    standard error are the diagnostics of the three shader stages and of the
    two texture files; the game loop and the clean-up write nothing, however
    long the loop runs. *)
Theorem main_stderr_after_initialisation (env : Env) (fuel : nat) :
  glfwInit_result env = true ->
  glfwCreateWindow_result env <> 0%N ->
  gladLoadGLLoader_result env = true ->
  cerr (snd (main env fuel start)) = main_diagnostics env.
Proof.
  intros H1 H2 H3.
  change (spec (main env fuel) start (fun _ w' => cerr w' = main_diagnostics env)).
  apply main_reaches_loop; [exact H1 | exact H2 | exact H3 | ].
  intros shaderProgram quadVAO tex1 tex2 w _ _ _ S _ _.
  apply spec_bind, spec_facts. intros finished w' _ E.
  pose proof (game_loop_keeps_cerr env (glfwCreateWindow_result env) main_projection
                fuel [sprite1 shaderProgram quadVAO tex1;
                      sprite2 shaderProgram quadVAO tex2] w) as G.
  rewrite <- E in G. rewrite S in G.
  destruct finished; [|apply spec_ret; exact G].
  unfold glDeleteVertexArrays, glDeleteProgram, glfwTerminate. exec. exact G.
Qed.

Lemma main_stderr_witness :
  cerr (snd (main env_esc 2 start)) =
  ["[ERRO] Falha ao carregar textura em: "%string;
   "../assets/sprites/microbio.png"%string; endl;
   "[ERRO] Falha ao carregar textura em: "%string;
   "../assets/sprites/enemies-spritesheet1.png"%string; endl].
Proof.
  apply (main_stderr_after_initialisation env_esc 2);
    [reflexivity | discriminate | reflexivity].
Defined.

(** X13: the calls [main] makes on each failure path, in full.  When GLFW
    does not initialise nothing else is called; when the window is not
    created GLFW is terminated; when the GL loader fails [main] returns
    with the window made current and the key callback set, and without
    terminating GLFW. *)
Theorem main_failure_paths (env : Env) (fuel : nat) :
  (glfwInit_result env = false ->
   calls (snd (main env fuel start)) = [mkCall "glfwInit" []])
  /\ (glfwInit_result env = true ->
      glfwCreateWindow_result env = 0%N ->
      calls (snd (main env fuel start)) =
      [ mkCall "glfwInit" [];
        mkCall "glfwWindowHint" [AInt GLFW_SAMPLES; AInt 4];
        mkCall "glfwCreateWindow"
          [AInt SCREEN_WIDTH; AInt SCREEN_HEIGHT; AString "MultiSprite Example"];
        mkCall "glfwTerminate" [] ])
  /\ (glfwInit_result env = true ->
      glfwCreateWindow_result env <> 0%N ->
      gladLoadGLLoader_result env = false ->
      calls (snd (main env fuel start)) =
      [ mkCall "glfwInit" [];
        mkCall "glfwWindowHint" [AInt GLFW_SAMPLES; AInt 4];
        mkCall "glfwCreateWindow"
          [AInt SCREEN_WIDTH; AInt SCREEN_HEIGHT; AString "MultiSprite Example"];
        mkCall "glfwMakeContextCurrent" [AUInt (glfwCreateWindow_result env)];
        mkCall "glfwSetKeyCallback"
          [AUInt (glfwCreateWindow_result env); AString "key_callback"];
        mkCall "gladLoadGLLoader" [] ]).
Proof.
  split; [|split].
  - intro H1.
    change (spec (main env fuel) start (fun _ w' =>
              calls w' = [mkCall "glfwInit" []])).
    unfold main, glfwInit. exec. rewrite H1. cbn [negb]. exec. reflexivity.
  - intros H1 H2.
    change (spec (main env fuel) start (fun _ w' => calls w' =
      [ mkCall "glfwInit" [];
        mkCall "glfwWindowHint" [AInt GLFW_SAMPLES; AInt 4];
        mkCall "glfwCreateWindow"
          [AInt SCREEN_WIDTH; AInt SCREEN_HEIGHT; AString "MultiSprite Example"];
        mkCall "glfwTerminate" [] ])).
    unfold main, glfwInit. exec. rewrite H1. cbn [negb].
    unfold glfwWindowHint, glfwCreateWindow. exec. rewrite H2. cbn [N.eqb].
    unfold glfwTerminate. exec. reflexivity.
  - intros H1 H2 H3. apply N.eqb_neq in H2.
    change (spec (main env fuel) start (fun _ w' => calls w' =
      [ mkCall "glfwInit" [];
        mkCall "glfwWindowHint" [AInt GLFW_SAMPLES; AInt 4];
        mkCall "glfwCreateWindow"
          [AInt SCREEN_WIDTH; AInt SCREEN_HEIGHT; AString "MultiSprite Example"];
        mkCall "glfwMakeContextCurrent" [AUInt (glfwCreateWindow_result env)];
        mkCall "glfwSetKeyCallback"
          [AUInt (glfwCreateWindow_result env); AString "key_callback"];
        mkCall "gladLoadGLLoader" [] ])).
    unfold main, glfwInit. exec. rewrite H1. cbn [negb].
    unfold glfwWindowHint, glfwCreateWindow. exec. rewrite H2.
    unfold glfwMakeContextCurrent, glfwSetKeyCallback, gladLoadGLLoader. exec.
    rewrite H3. cbn [negb]. exec. reflexivity.
Qed.

Lemma main_failure_paths_witness :
  calls (snd (main env_no_loader 0 start)) =
  [ mkCall "glfwInit" [];
    mkCall "glfwWindowHint" [AInt GLFW_SAMPLES; AInt 4];
    mkCall "glfwCreateWindow"
      [AInt SCREEN_WIDTH; AInt SCREEN_HEIGHT; AString "MultiSprite Example"];
    mkCall "glfwMakeContextCurrent" [AUInt 1];
    mkCall "glfwSetKeyCallback" [AUInt 1; AString "key_callback"];
    mkCall "gladLoadGLLoader" [] ].
Proof.
  destruct (main_failure_paths env_no_loader 0) as (_ & _ & loader).
  apply loader; [reflexivity | discriminate | reflexivity].
Defined.

(** ** Setters and texture formats *)

(** X16: a setter called again overwrites what its earlier call stored, and
    setters of different fields commute: the state after any run of setter
    calls is given by the last call of each setter. *)
Theorem setters_overwrite_and_commute
    (x y x' y' w h w' h' a a' : R) (this : Sprite) :
  SetPosition x y (SetPosition x' y' this) = SetPosition x y this
  /\ SetScale w h (SetScale w' h' this) = SetScale w h this
  /\ SetRotation a (SetRotation a' this) = SetRotation a this
  /\ SetPosition x y (SetScale w h this) = SetScale w h (SetPosition x y this)
  /\ SetPosition x y (SetRotation a this) = SetRotation a (SetPosition x y this)
  /\ SetScale w h (SetRotation a this) = SetRotation a (SetScale w h this).
Proof. repeat split. Qed.

(** X17: [loadTexture] declares an image as GL_RED for one channel, GL_RGBA
    for four and GL_RGB for every other count: a two-channel image, and any
    count outside 1..4, is uploaded as three-component GL_RGB. *)
Theorem texture_format_falls_back_to_rgb (channels : Z) :
  (texture_format channels = "GL_RED"%string <-> channels = 1%Z)
  /\ (texture_format channels = "GL_RGBA"%string <-> channels = 4%Z)
  /\ (texture_format channels = "GL_RGB"%string <-> channels <> 1%Z /\ channels <> 4%Z).
Proof.
  unfold texture_format.
  destruct (Z.eqb_spec channels 1) as [-> | N1]; cbn [Z.eqb].
  - repeat split; try discriminate; try reflexivity; intros; lia.
  - destruct (Z.eqb_spec channels 3) as [-> | N3]; cbn [Z.eqb].
    + repeat split; try discriminate; try reflexivity; intros; lia.
    + destruct (Z.eqb_spec channels 4) as [-> | N4].
      * repeat split; try discriminate; try reflexivity; intros; lia.
      * repeat split; try discriminate; try reflexivity; intros; try lia;
          try assumption.
Qed.
